(** * The review-pull-request scripts: fetch_issue, fetch_pr_diff, fetch_pr_comments

    A shallow embedding of the three command-line scripts under
    [.codex/skills/review-pull-request/scripts/] and the properties their
    specification states about them.

    Conventions of the embedding.
    - A Python [str] is a Rocq [string]; a character stands for the code
      point of the same number, so the model covers code points below 256.
    - A value produced by [json.loads] is a [json] tree; numbers are integers
      (the payloads of the GitHub client hold no fractional number).
    - [int] is the arbitrary-precision conversion; the interpreter's optional
      limit on the number of digits is not modelled.
    - The only effect of the scripts is [subprocess.run]; a computation is a
      tree of such calls ([io]), run against a responder ([world]). *)

From Stdlib Require Import String Ascii List ZArith Bool Lia.
From Stdlib Require Import DecimalString DecimalPos.
Import ListNotations.
Open Scope string_scope.

(** ** Characters and strings as Python sees them *)

Module Py.

Definition code (c : ascii) : nat := nat_of_ascii c.

Definition dquote : ascii := ascii_of_nat 34.
Definition bslash : ascii := ascii_of_nat 92.
Definition newline : ascii := ascii_of_nat 10.

Definition chr (c : ascii) : string := String c EmptyString.

(** [str.isspace] on one character. *)
Definition isspace (c : ascii) : bool :=
  let n := code c in
  (((9 <=? n) && (n <=? 13)) || ((28 <=? n) && (n <=? 32))
   || (n =? 133) || (n =? 160))%nat.

(** The class [\d] of [re] on one character. *)
Definition isdecimal (c : ascii) : bool :=
  ((48 <=? code c) && (code c <=? 57))%nat.

Definition digit_val (c : ascii) : Z := Z.of_nat (code c - 48).

Fixpoint lstrip_by (p : ascii -> bool) (s : string) : string :=
  match s with
  | String c r => if p c then lstrip_by p r else s
  | EmptyString => EmptyString
  end.

Fixpoint rstrip_by (p : ascii -> bool) (s : string) : string :=
  match s with
  | String c r =>
      match rstrip_by p r with
      | EmptyString => if p c then EmptyString else chr c
      | r' => String c r'
      end
  | EmptyString => EmptyString
  end.

(** [s.strip()] *)
Definition strip (s : string) : string :=
  rstrip_by isspace (lstrip_by isspace s).

(** [s.lstrip(chars)] *)
Definition lstrip_chars (chars : list ascii) (s : string) : string :=
  lstrip_by (fun c => existsb (Ascii.eqb c) chars) s.

(** [sep.join(l)] *)
Fixpoint join (sep : string) (l : list string) : string :=
  match l with
  | [] => ""
  | [x] => x
  | x :: r => x ++ sep ++ join sep r
  end.

Fixpoint all_chars (p : ascii -> bool) (s : string) : bool :=
  match s with
  | String c r => p c && all_chars p r
  | EmptyString => true
  end.

Fixpoint contains_char (c : ascii) (s : string) : bool :=
  match s with
  | String d r => Ascii.eqb c d || contains_char c r
  | EmptyString => false
  end.

(** [sub in s] for strings *)
Fixpoint contains (sub s : string) : bool :=
  prefix sub s ||
  match s with
  | String _ r => contains sub r
  | EmptyString => false
  end.

Fixpoint flat_map_str (f : ascii -> string) (s : string) : string :=
  match s with
  | String c r => f c ++ flat_map_str f r
  | EmptyString => ""
  end.

(** [str(n)] for an integer *)
Definition str_int (z : Z) : string := NilZero.string_of_int (Z.to_int z).

(** The body of [int(s)] after the sign: decimal digits, single underscores
    allowed between two digits. *)
Fixpoint int_digits (acc : Z) (after_digit : bool) (s : string) : option Z :=
  match s with
  | String c r =>
      if isdecimal c then int_digits (10 * acc + digit_val c) true r
      else if Ascii.eqb c "_" && after_digit then int_digits acc false r
      else None
  | EmptyString => if after_digit then Some acc else None
  end.

(** [int(s)] for a string; [None] is [ValueError]. *)
Definition int_str (s : string) : option Z :=
  match strip s with
  | String "-" r => option_map Z.opp (int_digits 0 false r)
  | String "+" r => int_digits 0 false r
  | t => int_digits 0 false t
  end.

Definition hex_digit (n : nat) : ascii :=
  nth n (list_ascii_of_string "0123456789abcdef") "0"%char.

Definition hex2 (c : ascii) : string :=
  String (hex_digit (code c / 16)) (chr (hex_digit (code c mod 16))).

(** [str.isprintable] on one character. *)
Definition isprintable (c : ascii) : bool :=
  let n := code c in
  (((32 <=? n) && (n <=? 126)) || ((161 <=? n) && negb (n =? 173)))%nat.

Definition repr_char (q c : ascii) : string :=
  if Ascii.eqb c q || Ascii.eqb c bslash then String bslash (chr c)
  else if (code c =? 9)%nat then String bslash "t"
  else if (code c =? 10)%nat then String bslash "n"
  else if (code c =? 13)%nat then String bslash "r"
  else if isprintable c then chr c
  else String bslash (String "x" (hex2 c)).

(** [repr(s)] for a string: single quotes, unless the string holds one and
    holds no double quote. *)
Definition repr_str (s : string) : string :=
  let q := if contains_char "'" s && negb (contains_char dquote s)
           then dquote else "'"%char in
  String q (flat_map_str (repr_char q) s ++ chr q).

(** The regular expressions of the scripts. *)

(** [re.fullmatch(r"\d+", s)] *)
Definition fullmatch_digits (s : string) : bool :=
  match s with
  | String _ _ => all_chars isdecimal s
  | EmptyString => false
  end.

(** [re.fullmatch(r"#\d+", s)] *)
Definition fullmatch_hash_digits (s : string) : bool :=
  match s with
  | String "#" r => fullmatch_digits r
  | _ => false
  end.

(** [re.match(r"/pull/(\d+)", s)]: the pattern matches at the start of [s]. *)
Definition match_pull_digits (s : string) : bool :=
  match s with
  | String "/" (String "p" (String "u" (String "l" (String "l"
      (String "/" (String d _)))))) => isdecimal d
  | _ => false
  end.

(** [re.search(r"/pull/(\d+)", s)]: the pattern matches at some position. *)
Fixpoint search_pull_digits (s : string) : bool :=
  match_pull_digits s ||
  match s with
  | String _ r => search_pull_digits r
  | EmptyString => false
  end.

End Py.

(** ** Exceptions *)

Inductive exn_class : Type :=
| RuntimeError | ValueError | KeyError | TypeError | AttributeError | OSError.

(** An exception of a subclass of [Exception]: its class and [str(e)]. *)
Record exn : Type := Exn { exn_cls : exn_class; exn_str : string }.

Inductive result (A : Type) : Type :=
| Ok (a : A)
| Err (e : exn).
Arguments Ok {A} a.
Arguments Err {A} e.

Definition rbind {A B} (r : result A) (f : A -> result B) : result B :=
  match r with
  | Ok a => f a
  | Err e => Err e
  end.

Declare Scope result_scope.
Delimit Scope result_scope with result.
Notation "x <- r ;; k" := (rbind r (fun x => k))
  (at level 61, r at next level, right associativity) : result_scope.


Definition rmap {A B} (f : A -> B) (r : result A) : result B :=
  rbind r (fun a => Ok (f a)).

(** A loop body run over a list, stopping at the first exception. *)
Fixpoint mapM {A B} (f : A -> result B) (l : list A) : result (list B) :=
  match l with
  | [] => Ok []
  | x :: r =>
      rbind (f x) (fun y => rbind (mapM f r) (fun ys => Ok (y :: ys)))
  end.

(** ** JSON values and the operations Python applies to them *)

#[warnings="-register-all"]
Inductive json : Type :=
| JNull
| JBool (b : bool)
| JNum (n : Z)
| JStr (s : string)
| JArr (l : list json)
| JObj (kvs : list (string * json)).

Module PyJson.

Definition type_name (v : json) : string :=
  match v with
  | JNull => "NoneType"
  | JBool _ => "bool"
  | JNum _ => "int"
  | JStr _ => "str"
  | JArr _ => "list"
  | JObj _ => "dict"
  end.

(** [bool(v)] *)
Definition truthy (v : json) : bool :=
  match v with
  | JNull => false
  | JBool b => b
  | JNum n => negb (n =? 0)%Z
  | JStr s => negb (s =? "")
  | JArr l => match l with [] => false | _ => true end
  | JObj kvs => match kvs with [] => false | _ => true end
  end.

(** [v or d] *)
Definition or_else (v d : json) : json := if truthy v then v else d.

(** [isinstance(v, dict)] *)
Definition is_dict (v : json) : bool :=
  match v with JObj _ => true | _ => false end.

(** A dict keeps its keys in insertion order and holds each key once. *)
Fixpoint lookup (k : string) (kvs : list (string * json)) : option json :=
  match kvs with
  | [] => None
  | (k', v) :: r => if k =? k' then Some v else lookup k r
  end.

(** [v.get(k)] *)
Definition get (v : json) (k : string) : result json :=
  match v with
  | JObj kvs => Ok (match lookup k kvs with Some x => x | None => JNull end)
  | _ => Err (Exn AttributeError
                ("'" ++ type_name v ++ "' object has no attribute 'get'"))
  end.

(** [v[k]] for a string [k] *)
Definition index (v : json) (k : string) : result json :=
  match v with
  | JObj kvs =>
      match lookup k kvs with
      | Some x => Ok x
      | None => Err (Exn KeyError (Py.repr_str k))
      end
  | JArr _ =>
      Err (Exn TypeError "list indices must be integers or slices, not str")
  | JStr _ =>
      Err (Exn TypeError "string indices must be integers, not 'str'")
  | _ => Err (Exn TypeError
                ("'" ++ type_name v ++ "' object is not subscriptable"))
  end.

Definition is_str (k : string) (v : json) : bool :=
  match v with JStr s => s =? k | _ => false end.

(** [k in v] for a string [k] *)
Definition contains_key (k : string) (v : json) : result bool :=
  match v with
  | JObj kvs => Ok (match lookup k kvs with Some _ => true | None => false end)
  | JArr l => Ok (existsb (is_str k) l)
  | JStr s => Ok (Py.contains k s)
  | _ => Err (Exn TypeError
                ("argument of type '" ++ type_name v ++ "' is not iterable"))
  end.

Fixpoint chars (s : string) : list json :=
  match s with
  | String c r => JStr (Py.chr c) :: chars r
  | EmptyString => []
  end.

(** The elements a [for] loop or [list.extend] draws from [v]. *)
Definition iter (v : json) : result (list json) :=
  match v with
  | JArr l => Ok l
  | JStr s => Ok (chars s)
  | JObj kvs => Ok (map (fun kv => JStr (fst kv)) kvs)
  | _ => Err (Exn TypeError
                ("'" ++ type_name v ++ "' object is not iterable"))
  end.

(** [int(v)] *)
Definition int_of (v : json) : result Z :=
  match v with
  | JNum n => Ok n
  | JBool b => Ok (if b then 1 else 0)%Z
  | JStr s =>
      match Py.int_str s with
      | Some n => Ok n
      | None => Err (Exn ValueError
                       ("invalid literal for int() with base 10: "
                        ++ Py.repr_str s))
      end
  | _ => Err (Exn TypeError
                ("int() argument must be a string, a bytes-like object or a "
                 ++ "real number, not '" ++ type_name v ++ "'"))
  end.

(** [repr(v)] *)
Fixpoint repr (v : json) : string :=
  match v with
  | JNull => "None"
  | JBool true => "True"
  | JBool false => "False"
  | JNum n => Py.str_int n
  | JStr s => Py.repr_str s
  | JArr l => "[" ++ Py.join ", " (map repr l) ++ "]"
  | JObj kvs =>
      "{" ++ Py.join ", "
               (map (fun kv => let '(k, x) := kv in
                               Py.repr_str k ++ ": " ++ repr x) kvs)
          ++ "}"
  end.

(** [str(v)], what an f-string inserts *)
Definition str (v : json) : string :=
  match v with
  | JStr s => s
  | _ => repr v
  end.

Definition escape_char (c : ascii) : string :=
  if Ascii.eqb c Py.dquote then String Py.bslash (Py.chr Py.dquote)
  else if Ascii.eqb c Py.bslash then String Py.bslash (Py.chr Py.bslash)
  else if (Py.code c =? 10)%nat then String Py.bslash "n"
  else if (Py.code c =? 13)%nat then String Py.bslash "r"
  else if (Py.code c =? 9)%nat then String Py.bslash "t"
  else if (Py.code c =? 12)%nat then String Py.bslash "f"
  else if (Py.code c =? 8)%nat then String Py.bslash "b"
  else if ((32 <=? Py.code c) && (Py.code c <=? 126))%nat then Py.chr c
  else String Py.bslash ("u00" ++ Py.hex2 c).

(** A string as [json.dumps] writes it ([ensure_ascii] is on). *)
Definition encode_str (s : string) : string :=
  String Py.dquote (Py.flat_map_str escape_char s ++ Py.chr Py.dquote).

Fixpoint spaces (n : nat) : string :=
  match n with
  | O => ""
  | S m => String " " (spaces m)
  end.

Definition nl_indent (level : nat) : string :=
  String Py.newline (spaces (2 * level)).

Fixpoint dumps_at (level : nat) (v : json) : string :=
  match v with
  | JNull => "null"
  | JBool true => "true"
  | JBool false => "false"
  | JNum n => Py.str_int n
  | JStr s => encode_str s
  | JArr [] => "[]"
  | JArr l =>
      "[" ++ nl_indent (S level)
          ++ Py.join ("," ++ nl_indent (S level)) (map (dumps_at (S level)) l)
          ++ nl_indent level ++ "]"
  | JObj [] => "{}"
  | JObj kvs =>
      "{" ++ nl_indent (S level)
          ++ Py.join ("," ++ nl_indent (S level))
               (map (fun kv => let '(k, x) := kv in
                               encode_str k ++ ": " ++ dumps_at (S level) x)
                    kvs)
          ++ nl_indent level ++ "}"
  end.

(** [json.dumps(v, indent=2)] *)
Definition dumps (v : json) : string := dumps_at 0 v.

End PyJson.

(** ** Computations that start external processes *)

(** What [subprocess.run(cmd, capture_output=True, text=True)] gives back:
    a completed process, or an exception of its own (the program is not
    installed, its output does not decode). *)
Inductive proc_result : Type :=
| Completed (returncode : Z) (stdout stderr : string)
| NotStarted (e : exn).

(** A computation either returns, raises, starts a process and goes on with
    its result, or is a loop cut off before its end. *)
Inductive io (A : Type) : Type :=
| Ret (a : A)
| Raise (e : exn)
| Run (cmd : list string) (input : option string) (k : proc_result -> io A)
| OutOfFuel.
Arguments Ret {A} a.
Arguments Raise {A} e.
Arguments Run {A} cmd input k.
Arguments OutOfFuel {A}.

Fixpoint bind {A B} (m : io A) (f : A -> io B) : io B :=
  match m with
  | Ret a => f a
  | Raise e => Raise e
  | Run cmd input k => Run cmd input (fun p => bind (k p) f)
  | OutOfFuel => OutOfFuel
  end.

(** [try: m except Exception as e: h e] *)
Fixpoint catch {A} (m : io A) (h : exn -> io A) : io A :=
  match m with
  | Ret a => Ret a
  | Raise e => h e
  | Run cmd input k => Run cmd input (fun p => catch (k p) h)
  | OutOfFuel => OutOfFuel
  end.

Definition lift {A} (r : result A) : io A :=
  match r with
  | Ok a => Ret a
  | Err e => Raise e
  end.

Declare Scope io_scope.
Delimit Scope io_scope with io.
Notation "x <- m ;; k" := (bind m (fun x => k))
  (at level 61, m at next level, right associativity) : io_scope.
Notation "m ;;; k" := (bind m (fun _ => k))
  (at level 61, right associativity) : io_scope.

(** The responder behind [subprocess.run]: the command line and the text
    given on standard input go in, a result comes out, the responder moves
    to its next state. *)
Record world : Type := World {
  wstate : Type;
  respond : wstate -> list string -> option string -> proc_result * wstate
}.

Record call : Type := Call {
  call_cmd : list string;
  call_input : option string;
  call_result : proc_result
}.

Inductive run_result (A : Type) : Type :=
| Returned (a : A)
| Raised (e : exn)
| Unfinished.
Arguments Returned {A} a.
Arguments Raised {A} e.
Arguments Unfinished {A}.

(** Running a computation against a responder: how it ends and the calls
    it made, in order. *)
Fixpoint exec {A} (W : world) (m : io A) (w : wstate W)
  : run_result A * list call :=
  match m with
  | Ret a => (Returned a, [])
  | Raise e => (Raised e, [])
  | OutOfFuel => (Unfinished, [])
  | Run cmd input k =>
      let '(p, w') := respond W w cmd input in
      let '(r, tr) := exec W (k p) w' in
      (r, Call cmd input p :: tr)
  end.

(** A responder that replays a list of results, whatever it is asked. *)
Definition scripted : world :=
  World (list proc_result)
        (fun script _ _ =>
           match script with
           | p :: rest => (p, rest)
           | [] => (NotStarted (Exn OSError "no more responses"), [])
           end).

(** How a run of a script ends: exit status, standard output, standard
    error.  A [main] that raises instead is an exception no handler of the
    script caught. *)
Record outcome : Type := Outcome {
  status : Z;
  out : string;
  err : string
}.

(** [print(s)] appends a newline. *)
Definition line (s : string) : string := s ++ Py.chr Py.newline.

(** ** fetch_issue.py *)

Module FetchIssue.
Section Script.

(** [json.loads]: the parsed value, or the text of the [JSONDecodeError]. *)
Variable json_loads : string -> json + string.

Local Open Scope io_scope.

Definition _run (cmd : list string) : io string :=
  Run cmd None (fun p =>
    match p with
    | NotStarted e => Raise e
    | Completed returncode stdout stderr =>
        if negb (returncode =? 0)%Z then
          Raise (Exn RuntimeError
                   ("Command failed: " ++ Py.join " " cmd
                    ++ Py.chr Py.newline ++ Py.strip stderr))
        else Ret stdout
    end).

Definition _run_json (cmd : list string) : io json :=
  out <- _run cmd ;;
  match json_loads out with
  | inl v => Ret v
  | inr e =>
      Raise (Exn RuntimeError
               ("Failed to parse JSON output: " ++ e ++ Py.chr Py.newline
                ++ "Raw:" ++ Py.chr Py.newline ++ out))
  end.

Definition _ensure_gh_authenticated : io unit :=
  catch (_run ["gh"; "auth"; "status"] ;;; Ret tt)
        (fun _ => Raise (Exn RuntimeError
                           "GitHub CLI is not authenticated. Run: gh auth login")).

Definition _parse_issue_number (arg : string) : result Z :=
  let s := Py.strip arg in
  let s := Py.lstrip_chars ["#"%char] s in
  if negb (Py.fullmatch_digits s) then
    Err (Exn ValueError ("Invalid issue number: " ++ Py.repr_str arg
                         ++ ". Expected something like 123 or #123."))
  else
    match Py.int_str s with
    | None => Err (Exn ValueError ("invalid literal for int() with base 10: "
                                   ++ Py.repr_str s))
    | Some n =>
        if (n <? 1)%Z then Err (Exn ValueError "Issue number must be >= 1.")
        else Ok n
    end.

Definition fields : string :=
  Py.join ","
    ["number"; "title"; "url"; "state"; "body"; "author"; "createdAt";
     "updatedAt"; "assignees"; "labels"; "comments"].

Local Open Scope result_scope.

(** [[a.get(k) for a in (payload.get(field) or []) if isinstance(a, dict)]] *)
Definition flat_names (payload : json) (field k : string) : result json :=
  v <- PyJson.get payload field ;;
  l <- PyJson.iter (PyJson.or_else v (JArr [])) ;;
  l' <- mapM (fun a => PyJson.get a k) (filter PyJson.is_dict l) ;;
  Ok (JArr l').

(** [(v.get("author") or {}).get("login")] *)
Definition author_login (v : json) : result json :=
  a <- PyJson.get v "author" ;;
  PyJson.get (PyJson.or_else a (JObj [])) "login".

(** The dict literal bound to [issue] in [fetch_issue]. *)
Definition normalize_issue (payload : json) : result json :=
  number <- PyJson.get payload "number" ;;
  title <- PyJson.get payload "title" ;;
  url <- PyJson.get payload "url" ;;
  state <- PyJson.get payload "state" ;;
  body <- PyJson.get payload "body" ;;
  author <- author_login payload ;;
  createdAt <- PyJson.get payload "createdAt" ;;
  updatedAt <- PyJson.get payload "updatedAt" ;;
  assignees <- flat_names payload "assignees" "login" ;;
  labels <- flat_names payload "labels" "name" ;;
  Ok (JObj [("number", number); ("title", title); ("url", url);
            ("state", state); ("body", PyJson.or_else body (JStr ""));
            ("author", author); ("createdAt", createdAt);
            ("updatedAt", updatedAt); ("assignees", assignees);
            ("labels", labels)]).

(** The dict appended to [comments_out] for one comment [c], a dict. *)
Definition normalize_comment (c : json) : result json :=
  id <- PyJson.get c "id" ;;
  author <- author_login c ;;
  createdAt <- PyJson.get c "createdAt" ;;
  updatedAt <- PyJson.get c "updatedAt" ;;
  body <- PyJson.get c "body" ;;
  Ok (JObj [("id", id); ("author", author); ("createdAt", createdAt);
            ("updatedAt", updatedAt); ("body", PyJson.or_else body (JStr ""))]).

(** The loop that fills [comments_out]; elements that are no dict are
    skipped. *)
Definition normalize_comments (payload : json) : result json :=
  v <- PyJson.get payload "comments" ;;
  l <- PyJson.iter (PyJson.or_else v (JArr [])) ;;
  l' <- mapM normalize_comment (filter PyJson.is_dict l) ;;
  Ok (JArr l').

(** [fetch_issue] after the call of the client: the reshaping of its
    payload. *)
Definition normalize (payload : json) : result json :=
  issue <- normalize_issue payload ;;
  comments_out <- normalize_comments payload ;;
  Ok (JObj [("issue", issue); ("comments", comments_out)]).

Local Close Scope result_scope.

Definition fetch_issue (issue_number : Z) : io json :=
  payload <- _run_json ["gh"; "issue"; "view"; Py.str_int issue_number;
                        "--json"; fields] ;;
  lift (normalize payload).

Definition usage : string :=
  "Usage: python3 scripts/fetch_issue.py <issue_number_or_#issue_number>".

(** [main], with [argv] for [sys.argv]. *)
Definition main (argv : list string) : io outcome :=
  if negb (length argv =? 2)%nat then Ret (Outcome 2 "" (line usage))
  else
    catch
      (issue_number <- lift (_parse_issue_number (nth 1 argv "")) ;;
       _ensure_gh_authenticated ;;;
       result <- fetch_issue issue_number ;;
       Ret (Outcome 0 (line (PyJson.dumps result)) ""))
      (fun e => Ret (Outcome 1 "" (line (exn_str e)))).

End Script.
End FetchIssue.

(** ** fetch_pr_diff.py *)

Module FetchPrDiff.
Section Script.

Variable json_loads : string -> json + string.

Local Open Scope io_scope.

Definition _run (cmd : list string) : io string :=
  Run cmd None (fun p =>
    match p with
    | NotStarted e => Raise e
    | Completed returncode stdout stderr =>
        if negb (returncode =? 0)%Z then
          Raise (Exn RuntimeError
                   ("Command failed: " ++ Py.join " " cmd
                    ++ Py.chr Py.newline ++ Py.strip stderr))
        else Ret stdout
    end).

Definition _run_json (cmd : list string) : io json :=
  out <- _run cmd ;;
  match json_loads out with
  | inl v => Ret v
  | inr e =>
      Raise (Exn RuntimeError
               ("Failed to parse JSON from command output: " ++ e
                ++ Py.chr Py.newline ++ "Raw:" ++ Py.chr Py.newline ++ out))
  end.

Definition _ensure_gh_authenticated : io unit :=
  catch (_run ["gh"; "auth"; "status"] ;;; Ret tt)
        (fun _ => Raise (Exn RuntimeError
                           "GitHub CLI is not authenticated. Run: gh auth login")).

Definition _parse_pr_ref (arg : string) : result string :=
  let s := Py.strip arg in
  if Py.fullmatch_hash_digits s then Ok (Py.lstrip_chars ["#"%char] s)
  else if Py.fullmatch_digits s then Ok s
  else if Py.search_pull_digits s then Ok s
  else Err (Exn ValueError
              ("Invalid PR reference: " ++ Py.repr_str arg
               ++ ". Expected a number (e.g. 3698), #3698, or a PR URL.")).

(** [if pr_ref: cmd.append(pr_ref)]: [None] and the empty string add
    nothing. *)
Definition ref_args (pr_ref : option string) : list string :=
  match pr_ref with
  | Some r => if r =? "" then [] else [r]
  | None => []
  end.

Definition view_fields : string :=
  "number,title,url,headRefName,baseRefName,state,author,createdAt,updatedAt,additions,deletions,changedFiles,files".

Definition _get_pr_view_json (pr_ref : option string) : io json :=
  _run_json (["gh"; "pr"; "view"] ++ ref_args pr_ref
             ++ ["--json"; view_fields]).

Definition _get_pr_diff (pr_ref : option string) : io string :=
  _run (["gh"; "pr"; "diff"] ++ ref_args pr_ref).

Definition usage : string :=
  "Usage: python3 scripts/fetch_pr_diff.py [pr_number|#pr_number|pr_url]".

(** [main]: the reference is parsed before the [try] block is entered. *)
Definition main (argv : list string) : io outcome :=
  if (2 <? length argv)%nat then Ret (Outcome 2 "" (line usage))
  else
    pr_ref <- (if (length argv =? 2)%nat
               then r <- lift (_parse_pr_ref (nth 1 argv "")) ;; Ret (Some r)
               else Ret None) ;;
    catch
      (_ensure_gh_authenticated ;;;
       pr_json <- _get_pr_view_json pr_ref ;;
       diff <- _get_pr_diff pr_ref ;;
       Ret (Outcome 0 (line (PyJson.dumps
                               (JObj [("pr", pr_json); ("diff", JStr diff)])))
                    ""))
      (fun e => Ret (Outcome 1 "" (line (exn_str e)))).

End Script.
End FetchPrDiff.

(** ** fetch_pr_comments.py *)

Module FetchPrComments.

Definition QUERY : string :=
"query(
  $owner: String!,
  $repo: String!,
  $number: Int!,
  $commentsCursor: String,
  $reviewsCursor: String,
  $threadsCursor: String
) {
  repository(owner: $owner, name: $repo) {
    pullRequest(number: $number) {
      number
      url
      title
      state

      comments(first: 100, after: $commentsCursor) {
        pageInfo { hasNextPage endCursor }
        nodes {
          id
          body
          createdAt
          updatedAt
          author { login }
        }
      }

      reviews(first: 100, after: $reviewsCursor) {
        pageInfo { hasNextPage endCursor }
        nodes {
          id
          state
          body
          submittedAt
          author { login }
        }
      }

      reviewThreads(first: 100, after: $threadsCursor) {
        pageInfo { hasNextPage endCursor }
        nodes {
          id
          isResolved
          isOutdated
          path
          line
          diffSide
          startLine
          startDiffSide
          originalLine
          originalStartLine
          comments(first: 100) {
            nodes {
              id
              body
              createdAt
              updatedAt
              author { login }
            }
          }
        }
      }
    }
  }
}
".

Section Script.

Variable json_loads : string -> json + string.

Local Open Scope io_scope.

Definition _run (cmd : list string) (stdin : option string) : io string :=
  Run cmd stdin (fun p =>
    match p with
    | NotStarted e => Raise e
    | Completed returncode stdout stderr =>
        if negb (returncode =? 0)%Z then
          Raise (Exn RuntimeError
                   ("Command failed: " ++ Py.join " " cmd
                    ++ Py.chr Py.newline ++ Py.strip stderr))
        else Ret stdout
    end).

Definition _run_json (cmd : list string) (stdin : option string) : io json :=
  out <- _run cmd stdin ;;
  match json_loads out with
  | inl v => Ret v
  | inr e =>
      Raise (Exn RuntimeError
               ("Failed to parse JSON from command output: " ++ e
                ++ Py.chr Py.newline ++ "Raw:" ++ Py.chr Py.newline ++ out))
  end.

Definition _ensure_gh_authenticated : io unit :=
  catch (_run ["gh"; "auth"; "status"] None ;;; Ret tt)
        (fun _ => Raise (Exn RuntimeError
                           "GitHub CLI is not authenticated. Run: gh auth login")).

Definition _parse_pr_ref (arg : string) : result string :=
  let s := Py.strip arg in
  if Py.fullmatch_hash_digits s then Ok (Py.lstrip_chars ["#"%char] s)
  else if Py.fullmatch_digits s then Ok s
  else if Py.search_pull_digits s then Ok s
  else Err (Exn ValueError
              ("Invalid PR reference: " ++ Py.repr_str arg
               ++ ". Expected a number (e.g. 3698), #3698, or a PR URL.")).

Definition ref_args (pr_ref : option string) : list string :=
  match pr_ref with
  | Some r => if r =? "" then [] else [r]
  | None => []
  end.

(** [v[k1][k2]] *)
Definition index2 (v : json) (k1 k2 : string) : result json :=
  rbind (PyJson.index v k1) (fun x => PyJson.index x k2).

Definition _get_pr_owner_repo_number (pr_ref : option string)
  : io (json * json * Z) :=
  pr <- _run_json (["gh"; "pr"; "view"] ++ ref_args pr_ref
                   ++ ["--json"; "number,headRepositoryOwner,headRepository"])
                  None ;;
  owner <- lift (index2 pr "headRepositoryOwner" "login") ;;
  repo <- lift (index2 pr "headRepository" "name") ;;
  number <- lift (rbind (PyJson.index pr "number") PyJson.int_of) ;;
  Ret (owner, repo, number).

(** [if cursor: cmd += ["-F", f"name={cursor}"]] *)
Definition cursor_args (name : string) (cursor : json) : list string :=
  if PyJson.truthy cursor then ["-F"; name ++ "=" ++ PyJson.str cursor]
  else [].

Definition graphql_cmd (owner repo : json) (number : Z)
    (comments_cursor reviews_cursor threads_cursor : json) : list string :=
  ["gh"; "api"; "graphql"; "-F"; "query=@-";
   "-F"; "owner=" ++ PyJson.str owner;
   "-F"; "repo=" ++ PyJson.str repo;
   "-F"; "number=" ++ Py.str_int number]
  ++ cursor_args "commentsCursor" comments_cursor
  ++ cursor_args "reviewsCursor" reviews_cursor
  ++ cursor_args "threadsCursor" threads_cursor.

Definition _gh_api_graphql (owner repo : json) (number : Z)
    (comments_cursor reviews_cursor threads_cursor : json) : io json :=
  _run_json (graphql_cmd owner repo number
               comments_cursor reviews_cursor threads_cursor)
            (Some QUERY).

(** The local variables of [fetch_all] that live across iterations. *)
Record loop_state : Type := LoopState {
  conversation_comments : list json;
  reviews : list json;
  review_threads : list json;
  comments_cursor : json;
  reviews_cursor : json;
  threads_cursor : json;
  pr_meta : option json
}.

Definition initial_state : loop_state :=
  LoopState [] [] [] JNull JNull JNull None.

(** [if "errors" in payload and payload["errors"]: raise ...] *)
Definition check_errors (payload : json) : result unit :=
  rbind (PyJson.contains_key "errors" payload) (fun present =>
    if present then
      rbind (PyJson.index payload "errors") (fun errors =>
        if PyJson.truthy errors then
          Err (Exn RuntimeError
                 ("GitHub GraphQL errors:" ++ Py.chr Py.newline
                  ++ PyJson.dumps errors))
        else Ok tt)
    else Ok tt).

(** The dict built for [pr_meta] on the iteration that finds it unset. *)
Definition make_meta (pr owner repo : json) : result json :=
  rbind (PyJson.index pr "number") (fun number =>
  rbind (PyJson.index pr "url") (fun url =>
  rbind (PyJson.index pr "title") (fun title =>
  rbind (PyJson.index pr "state") (fun state =>
  Ok (JObj [("number", number); ("url", url); ("title", title);
            ("state", state); ("owner", owner); ("repo", repo)]))))).

(** [acc.extend(c.get("nodes") or [])] *)
Definition extend (acc : list json) (c : json) : result (list json) :=
  rbind (PyJson.get c "nodes") (fun nodes =>
  rbind (PyJson.iter (PyJson.or_else nodes (JArr []))) (fun l =>
  Ok (acc ++ l)%list)).

(** [c["pageInfo"]["endCursor"] if c["pageInfo"]["hasNextPage"] else None] *)
Definition next_cursor (c : json) : result json :=
  rbind (index2 c "pageInfo" "hasNextPage") (fun more =>
    if PyJson.truthy more then index2 c "pageInfo" "endCursor"
    else Ok JNull).

(** What one iteration does with the payload of its round trip. *)
Definition absorb (owner repo : json) (st : loop_state) (payload : json)
  : result loop_state :=
  rbind (check_errors payload) (fun _ =>
  rbind (rbind (index2 payload "data" "repository")
               (fun x => PyJson.index x "pullRequest")) (fun pr =>
  rbind (match pr_meta st with
         | None => make_meta pr owner repo
         | Some m => Ok m
         end) (fun meta =>
  rbind (PyJson.index pr "comments") (fun c =>
  rbind (PyJson.index pr "reviews") (fun r =>
  rbind (PyJson.index pr "reviewThreads") (fun t =>
  rbind (extend (conversation_comments st) c) (fun cs =>
  rbind (extend (reviews st) r) (fun rs =>
  rbind (extend (review_threads st) t) (fun ts =>
  rbind (next_cursor c) (fun cc =>
  rbind (next_cursor r) (fun rc =>
  rbind (next_cursor t) (fun tc =>
  Ok (LoopState cs rs ts cc rc tc (Some meta)))))))))))))).

(** [not (comments_cursor or reviews_cursor or threads_cursor)] *)
Definition finished (st : loop_state) : bool :=
  negb (PyJson.truthy (comments_cursor st)
        || PyJson.truthy (reviews_cursor st)
        || PyJson.truthy (threads_cursor st)).

(** The dict [fetch_all] returns once the loop is left. *)
Definition result_of (st : loop_state) : json :=
  JObj [("pull_request",
         match pr_meta st with Some m => m | None => JNull end);
        ("conversation_comments", JArr (conversation_comments st));
        ("reviews", JArr (reviews st));
        ("review_threads", JArr (review_threads st))].

(** The [while True] loop of [fetch_all], cut off after [fuel] round
    trips. *)
Fixpoint fetch_loop (fuel : nat) (owner repo : json) (number : Z)
    (st : loop_state) : io json :=
  match fuel with
  | O => OutOfFuel
  | S fuel' =>
      payload <- _gh_api_graphql owner repo number (comments_cursor st)
                   (reviews_cursor st) (threads_cursor st) ;;
      st' <- lift (absorb owner repo st payload) ;;
      if finished st' then Ret (result_of st')
      else fetch_loop fuel' owner repo number st'
  end.

Definition fetch_all (fuel : nat) (owner repo : json) (number : Z) : io json :=
  fetch_loop fuel owner repo number initial_state.

Definition usage : string :=
  "Usage: python3 scripts/fetch_pr_comments.py [pr_number|#pr_number|pr_url]".

(** [main]: the reference is parsed before the [try] block is entered. *)
Definition main (fuel : nat) (argv : list string) : io outcome :=
  if (2 <? length argv)%nat then Ret (Outcome 2 "" (line usage))
  else
    pr_ref <- (if (length argv =? 2)%nat
               then r <- lift (_parse_pr_ref (nth 1 argv "")) ;; Ret (Some r)
               else Ret None) ;;
    catch
      (_ensure_gh_authenticated ;;;
       orn <- _get_pr_owner_repo_number pr_ref ;;
       let '(owner, repo, number) := orn in
       result <- fetch_all fuel owner repo number ;;
       Ret (Outcome 0 (line (PyJson.dumps result)) ""))
      (fun e => Ret (Outcome 1 "" (line (exn_str e)))).

End Script.
End FetchPrComments.

(** ** A paged responder for the tests of the conversation fetcher

    The responder serves three collections cut into pages the way the query
    endpoint does: the page after the cursor it is sent, the first page when
    no cursor is sent. *)

Module Mock.

Record page : Type := Page { nodes : list json; end_cursor : string }.

Record server : Type := Server {
  comment_pages : list page;
  review_pages : list page;
  thread_pages : list page
}.

(** Page [i] of a collection as a connection object; every page but the
    last reports [hasNextPage]. *)
Definition connection (pages : list page) (i : nat) : json :=
  match nth_error pages i with
  | Some p =>
      JObj [("pageInfo",
             JObj [("hasNextPage", JBool (S i <? length pages)%nat);
                   ("endCursor", JStr (end_cursor p))]);
            ("nodes", JArr (nodes p))]
  | None =>
      JObj [("pageInfo",
             JObj [("hasNextPage", JBool false); ("endCursor", JNull)]);
            ("nodes", JArr [])]
  end.

(** The index of the page that follows cursor [t]. *)
Fixpoint page_after (pages : list page) (t : string) : nat :=
  match pages with
  | [] => O
  | p :: r => if end_cursor p =? t then 1%nat else S (page_after r t)
  end.

Fixpoint strip_prefix (p s : string) : option string :=
  match p, s with
  | EmptyString, _ => Some s
  | String a p', String b s' => if Ascii.eqb a b then strip_prefix p' s' else None
  | String _ _, EmptyString => None
  end.

(** The value of the field [name=value] of a command line. *)
Fixpoint find_arg (name : string) (cmd : list string) : option string :=
  match cmd with
  | [] => None
  | a :: r =>
      match strip_prefix (name ++ "=") a with
      | Some t => Some t
      | None => find_arg name r
      end
  end.

Definition page_index (pages : list page) (name : string) (cmd : list string)
  : nat :=
  match find_arg name cmd with
  | Some t => page_after pages t
  | None => O
  end.

Definition payload_at (srv : server) (i j k : nat) : json :=
  JObj [("data", JObj [("repository", JObj [("pullRequest",
    JObj [("number", JNum 7);
          ("url", JStr "https://github.com/acme/widget/pull/7");
          ("title", JStr "Add widget");
          ("state", JStr "OPEN");
          ("comments", connection (comment_pages srv) i);
          ("reviews", connection (review_pages srv) j);
          ("reviewThreads", connection (thread_pages srv) k)])])])].

Definition pr_view : json :=
  JObj [("number", JNum 7);
        ("headRepositoryOwner", JObj [("login", JStr "acme")]);
        ("headRepository", JObj [("name", JStr "widget")])].

(** A payload of [gh issue view] as the client writes it. *)
Definition full_issue : list (string * json) :=
  [("number", JNum 42); ("title", JStr "Crash on start");
   ("body", JStr "It crashes.");
   ("author", JObj [("login", JStr "alice")]);
   ("assignees", JArr []);
   ("labels", JArr [JObj [("name", JStr "bug")]]);
   ("comments",
    JArr [JObj [("id", JStr "IC_1");
                ("author", JObj [("login", JStr "bob")]);
                ("body", JStr "me too")]])].

Definition diff_text : string := "diff --git a/w b/w".

Definition answer (srv : server) (cmd : list string) : proc_result :=
  match cmd with
  | "gh" :: "auth" :: _ => Completed 0 "" ""
  | "gh" :: "issue" :: _ => Completed 0 (PyJson.dumps (JObj full_issue)) ""
  | "gh" :: "pr" :: "view" :: _ => Completed 0 (PyJson.dumps pr_view) ""
  | "gh" :: "pr" :: "diff" :: _ => Completed 0 diff_text ""
  | "gh" :: "api" :: _ =>
      Completed 0
        (PyJson.dumps
           (payload_at srv
              (page_index (comment_pages srv) "commentsCursor" cmd)
              (page_index (review_pages srv) "reviewsCursor" cmd)
              (page_index (thread_pages srv) "threadsCursor" cmd)))
        ""
  | _ => Completed 1 "" "unknown command"
  end.

(** The responder has no state of its own: an answer depends on the request
    alone. *)
Definition github (srv : server) : world :=
  World unit (fun _ cmd _ => (answer srv cmd, tt)).

(** [json.loads] on the texts the tests use: the value among [known] that
    [json.dumps] writes as this text. *)
Definition loads (known : list json) (s : string) : json + string :=
  match find (fun v => PyJson.dumps v =? s) known with
  | Some v => inl v
  | None => inr "Expecting value: line 1 column 1 (char 0)"
  end.

Definition payloads (srv : server) : list json :=
  pr_view :: JObj full_issue ::
  flat_map (fun i =>
    flat_map (fun j =>
      map (fun k => payload_at srv i j k)
          (seq 0 (length (thread_pages srv))))
      (seq 0 (length (review_pages srv))))
    (seq 0 (length (comment_pages srv))).

Definition node (id : string) : json :=
  JObj [("id", JStr id); ("body", JStr "text");
        ("author", JObj [("login", JStr "alice")])].

(** One page of comments, two pages of reviews, one page of threads. *)
Definition srv_1_2_1 : server :=
  Server [Page [node "c1"] "C1"]
         [Page [node "r1"] "R1"; Page [node "r2"] "R2"]
         [Page [node "t1"] "T1"].

(** Two pages of comments, three pages of reviews, one page of threads. *)
Definition srv_2_3_1 : server :=
  Server [Page [node "c1"] "C1"; Page [node "c2"] "C2"]
         [Page [node "r1"] "R1"; Page [node "r2"] "R2"; Page [node "r3"] "R3"]
         [Page [node "t1"] "T1"].

(** One page in each collection. *)
Definition srv_1_1_1 : server :=
  Server [Page [node "c1"; node "c2"] "C1"]
         [Page [node "r1"] "R1"]
         [Page [node "t1"] "T1"].


End Mock.

(** ** Notions the properties are stated with *)







(** A value that is neither a list nor an object. *)
Definition is_scalar (v : json) : bool :=
  match v with
  | JArr _ | JObj _ => false
  | _ => true
  end.

(** A record whose [author] field is a scalar. *)
Definition author_is_flat (c : json) : bool :=
  match PyJson.get c "author" with
  | Ok a => is_scalar a
  | Err _ => false
  end.

(** [v.get(k)] for a dict [v]: the value under [k], null when [k] is
    absent. *)
Definition field (k : string) (v : json) : json :=
  match PyJson.get v k with
  | Ok x => x
  | Err _ => JNull
  end.

(** The results a run received from the processes it started, in order. *)
Definition responses {A} (r : run_result A * list call) : list proc_result :=
  map call_result (snd r).

(** The number of processes a run started. *)
Definition round_trips {A} (r : run_result A * list call) : nat :=
  length (snd r).

(** The probe of the authentication status did not succeed: the client
    exited with a status other than 0, or could not be started. *)
Definition probe_failed (p : proc_result) : Prop :=
  match p with
  | Completed returncode _ _ => returncode <> 0%Z
  | NotStarted _ => True
  end.

Definition auth_probe : list string := ["gh"; "auth"; "status"].

Definition auth_message : string :=
  "GitHub CLI is not authenticated. Run: gh auth login".

(** The cursor of a collection as a request carries it, if it does. *)
Definition sent_cursor (name : string) (c : call) : option string :=
  Mock.find_arg name (call_cmd c).



(** The payloads [ps], taken in order, carry the loop from state [st] to
    its end: each is absorbed without an exception, the loop goes on after
    each but the last and stops after the last. *)
Fixpoint rounds (owner repo : json) (st : FetchPrComments.loop_state)
    (ps : list json) : option FetchPrComments.loop_state :=
  match ps with
  | [] => None
  | p :: rest =>
      match FetchPrComments.absorb owner repo st p with
      | Err _ => None
      | Ok st' =>
          if FetchPrComments.finished st' then
            match rest with
            | [] => Some st'
            | _ :: _ => None
            end
          else rounds owner repo st' rest
      end
  end.

(** Call [c] was answered with exit status 0 and a text that parses to
    [payload]. *)
Definition answered (json_loads : string -> json + string)
    (c : call) (payload : json) : Prop :=
  exists stdout stderr,
    call_result c = Completed 0 stdout stderr
    /\ json_loads stdout = inl payload.

(** Every value a computation can return satisfies [P], whatever the
    processes it starts answer. *)
Fixpoint all_rets {A} (P : A -> Prop) (m : io A) : Prop :=
  match m with
  | Ret a => P a
  | Raise _ => True
  | Run _ _ k => forall p, all_rets P (k p)
  | OutOfFuel => True
  end.

(** A computation holds no loop cut off before its end. *)
Fixpoint halts {A} (m : io A) : Prop :=
  match m with
  | Run _ _ k => forall p, halts (k p)
  | OutOfFuel => False
  | _ => True
  end.

(** A computation starts at most [n] processes, whatever they answer. *)
Fixpoint at_most {A} (n : nat) (m : io A) {struct m} : Prop :=
  match m with
  | Run _ _ k =>
      match n with
      | O => False
      | S n' => forall p, at_most n' (k p)
      end
  | _ => True
  end.

(** The three ways a script ends: the document on standard output and
    status 0; a message on standard error and status 1; the usage line on
    standard error and status 2.  Nothing is ever written to both streams. *)
Definition ends_well (usage : string) (o : outcome) : Prop :=
  (status o = 0%Z /\ err o = "" /\ exists v, out o = line (PyJson.dumps v))
  \/ (status o = 1%Z /\ out o = "" /\ exists e, err o = line (exn_str e))
  \/ (status o = 2%Z /\ out o = "" /\ err o = line usage).

(** The first eleven words of every request of the pagination loop. *)
Definition graphql_head (owner repo : json) (number : Z) : list string :=
  ["gh"; "api"; "graphql"; "-F"; "query=@-";
   "-F"; "owner=" ++ PyJson.str owner;
   "-F"; "repo=" ++ PyJson.str repo;
   "-F"; "number=" ++ Py.str_int number].


(** A value [for] can loop over once [or []] has been applied: a falsy
    value, a list, a string or a dict. *)
Definition loopable (v : json) : bool :=
  negb (PyJson.truthy v)
  || match v with
     | JArr _ | JStr _ | JObj _ => true
     | _ => false
     end.

(** An author [(... or {}).get("login")] can read: a falsy value or a
    dict. *)
Definition author_readable (v : json) : bool :=
  negb (PyJson.truthy v) || PyJson.is_dict v.

(** The elements [for x in (v or [])] visits, for a loopable [v]. *)
Definition elements (v : json) : list json :=
  match PyJson.iter (PyJson.or_else v (JArr [])) with
  | Ok l => l
  | Err _ => []
  end.

(** A payload of [gh issue view] that [fetch_issue] reshapes without an
    exception. *)
Definition well_shaped (kvs : list (string * json)) : bool :=
  author_readable (field "author" (JObj kvs))
  && loopable (field "assignees" (JObj kvs))
  && loopable (field "labels" (JObj kvs))
  && loopable (field "comments" (JObj kvs))
  && forallb (fun c => author_readable (field "author" c))
       (filter PyJson.is_dict (elements (field "comments" (JObj kvs)))).

(** * Facts about the string primitives *)

Section StringFacts.

Lemma isdecimal_not_space c : Py.isdecimal c = true -> Py.isspace c = false.
Proof.
  unfold Py.isdecimal, Py.isspace. generalize (Py.code c). intros n H.
  apply andb_true_iff in H. destruct H as [H1 H2].
  apply Nat.leb_le in H1. apply Nat.leb_le in H2.
  repeat match goal with
         | |- context [(?a <=? ?b)%nat] => destruct (Nat.leb_spec a b)
         | |- context [(?a =? ?b)%nat] => destruct (Nat.eqb_spec a b)
         end; simpl; try reflexivity; lia.
Qed.

Lemma isdecimal_not_char c d :
  Py.isdecimal c = true -> Py.isdecimal d = false -> Ascii.eqb c d = false.
Proof.
  intros Hc Hd. destruct (Ascii.eqb_spec c d); [subst; congruence | reflexivity].
Qed.

Lemma all_chars_weaken (p q : ascii -> bool) s :
  (forall c, p c = true -> q c = true) ->
  Py.all_chars p s = true -> Py.all_chars q s = true.
Proof.
  intros Hpq. induction s as [|c r IH]; simpl; [reflexivity|].
  intros H. apply andb_true_iff in H. destruct H as [Hc Hr].
  rewrite (Hpq _ Hc), (IH Hr). reflexivity.
Qed.

Lemma lstrip_by_head p c r : p c = false -> Py.lstrip_by p (String c r) = String c r.
Proof. intros H. simpl. rewrite H. reflexivity. Qed.

Lemma rstrip_by_none p s :
  Py.all_chars (fun c => negb (p c)) s = true -> Py.rstrip_by p s = s.
Proof.
  induction s as [|c r IH]; simpl; [reflexivity|].
  intros H. apply andb_true_iff in H. destruct H as [Hc Hr].
  rewrite (IH Hr). apply negb_true_iff in Hc. rewrite Hc.
  destruct r; reflexivity.
Qed.

Lemma strip_digits s : Py.all_chars Py.isdecimal s = true -> Py.strip s = s.
Proof.
  intros H. unfold Py.strip.
  assert (Hl : Py.lstrip_by Py.isspace s = s).
  { destruct s as [|c r]; [reflexivity|]. simpl in H.
    apply andb_true_iff in H. destruct H as [Hc _].
    apply lstrip_by_head, isdecimal_not_space, Hc. }
  rewrite Hl. apply rstrip_by_none.
  eapply all_chars_weaken; [|exact H].
  intros c Hc. simpl. rewrite (isdecimal_not_space _ Hc). reflexivity.
Qed.

Lemma lstrip_hash_digits s :
  Py.all_chars Py.isdecimal s = true -> Py.lstrip_chars ["#"%char] s = s.
Proof.
  intros H. destruct s as [|c r]; [reflexivity|].
  apply lstrip_by_head. simpl in H. apply andb_true_iff in H.
  destruct H as [Hc _]. simpl.
  rewrite (isdecimal_not_char c "#" Hc eq_refl). reflexivity.
Qed.








End StringFacts.

(** * The reference parsers *)

Section Parsers.

(** The two scripts for pull requests carry the same parser. *)
Lemma parse_pr_ref_same arg :
  FetchPrComments._parse_pr_ref arg = FetchPrDiff._parse_pr_ref arg.
Proof. reflexivity. Qed.


Lemma fullmatch_digits_all s :
  Py.fullmatch_digits s = true -> Py.all_chars Py.isdecimal s = true.
Proof. destruct s; [discriminate | exact (fun H => H)]. Qed.

Lemma fullmatch_hash_digits_inv s :
  Py.fullmatch_hash_digits s = true ->
  exists r, s = String "#" r /\ Py.fullmatch_digits r = true.
Proof.
  destruct s as [|c r]; [discriminate|].
  destruct c as [[] [] [] [] [] [] [] []]; simpl; try discriminate.
  intros H. exists r. split; [reflexivity | exact H].
Qed.



Lemma parse_pr_ref_digits s :
  Py.fullmatch_digits s = true -> FetchPrDiff._parse_pr_ref s = Ok s.
Proof.
  intros H. unfold FetchPrDiff._parse_pr_ref.
  rewrite (strip_digits _ (fullmatch_digits_all _ H)).
  destruct (Py.fullmatch_hash_digits s) eqn:E.
  - apply fullmatch_hash_digits_inv in E. destruct E as [r [-> _]].
    discriminate H.
  - rewrite H. reflexivity.
Qed.




(** The pattern [/pull/<digit>] somewhere in a string. *)
Lemma search_pull_digits_app pre d post :
  Py.isdecimal d = true ->
  Py.search_pull_digits (pre ++ "/pull/" ++ String d post) = true.
Proof.
  intros Hd. induction pre as [|a pre IH].
  - simpl. rewrite Hd. reflexivity.
  - change ((String a pre) ++ "/pull/" ++ String d post)
      with (String a (pre ++ "/pull/" ++ String d post)).
    cbn [Py.search_pull_digits]. rewrite IH. apply orb_true_r.
Qed.

Lemma not_digits_with_slash pre post :
  Py.all_chars Py.isdecimal (pre ++ String "/" post) = false.
Proof.
  induction pre as [|a pre IH]; simpl; [reflexivity|].
  rewrite IH. apply andb_false_r.
Qed.

Lemma not_fullmatch_digits_with_slash pre post :
  Py.fullmatch_digits (pre ++ String "/" post) = false.
Proof.
  destruct (Py.fullmatch_digits (pre ++ String "/" post)) eqn:E;
    [|reflexivity].
  apply fullmatch_digits_all in E.
  rewrite not_digits_with_slash in E. discriminate.
Qed.

Lemma not_fullmatch_hash_digits_with_slash pre post :
  Py.fullmatch_hash_digits (pre ++ String "/" post) = false.
Proof.
  destruct (Py.fullmatch_hash_digits (pre ++ String "/" post)) eqn:E;
    [|reflexivity].
  apply fullmatch_hash_digits_inv in E. destruct E as [r [Hs Hr]].
  destruct pre as [|a pre]; simpl in Hs; [discriminate|].
  injection Hs as _ Hs. subst r.
  rewrite not_fullmatch_digits_with_slash in Hr. discriminate.
Qed.

End Parsers.

(** C10. An argument that, once stripped of surrounding whitespace, holds
    [/pull/] followed by a digit anywhere is accepted by the parser of both
    pull-request scripts, which returns the stripped argument unchanged,
    whether or not it is a URL. *)
Theorem pr_ref_with_pull_segment_is_kept (arg pre post : string) (d : ascii) :
  Py.strip arg = pre ++ "/pull/" ++ String d post ->
  Py.isdecimal d = true ->
  FetchPrDiff._parse_pr_ref arg = Ok (Py.strip arg)
  /\ FetchPrComments._parse_pr_ref arg = Ok (Py.strip arg).
Proof.
  intros Hs Hd.
  assert (E : FetchPrDiff._parse_pr_ref arg = Ok (Py.strip arg)).
  { unfold FetchPrDiff._parse_pr_ref. rewrite Hs.
    change (pre ++ "/pull/" ++ String d post)
      with (pre ++ String "/" ("pull/" ++ String d post)).
    rewrite not_fullmatch_hash_digits_with_slash.
    rewrite not_fullmatch_digits_with_slash.
    change (pre ++ String "/" ("pull/" ++ String d post))
      with (pre ++ "/pull/" ++ String d post).
    rewrite (search_pull_digits_app pre d post Hd). reflexivity. }
  split; exact E.
Qed.

(** An instance: a padded argument that is no URL. *)
Lemma pr_ref_with_pull_segment_is_kept_witness :
  FetchPrDiff._parse_pr_ref " see x/pull/12y " = Ok "see x/pull/12y"
  /\ FetchPrComments._parse_pr_ref " see x/pull/12y " = Ok "see x/pull/12y".
Proof.
  apply (pr_ref_with_pull_segment_is_kept " see x/pull/12y " "see x" "2y" "1");
    reflexivity.
Defined.




(** * Reshaping of the issue payload *)

Section IssueNormalization.

Lemma get_obj kvs k :
  PyJson.get (JObj kvs) k
  = Ok (match PyJson.lookup k kvs with Some x => x | None => JNull end).
Proof. reflexivity. Qed.




(** The author of a record that has one: its login. *)
Lemma author_login_of_object kvs akvs login :
  PyJson.lookup "author" kvs = Some (JObj akvs) ->
  PyJson.lookup "login" akvs = Some login ->
  FetchIssue.author_login (JObj kvs) = Ok login.
Proof.
  intros Ha Hl. unfold FetchIssue.author_login. rewrite get_obj, Ha.
  destruct akvs as [|kv akvs]; [discriminate Hl|].
  cbn [rbind]. unfold PyJson.or_else. cbn [PyJson.truthy].
  rewrite get_obj, Hl. reflexivity.
Qed.





End IssueNormalization.




(** * Which pipeline reshapes what *)

(** Undo the steps of a chain of [rbind] that ended well. *)
Ltac rbind_inv H :=
  repeat match type of H with
         | rbind ?r _ = Ok _ =>
             let E := fresh "E" in
             destruct r eqn:E; cbn [rbind] in H; [|discriminate H]
         end.

Section Reshaping.

Lemma mapM_get_dicts k l :
  mapM (fun a => PyJson.get a k) (filter PyJson.is_dict l)
  = Ok (map (field k) (filter PyJson.is_dict l)).
Proof.
  induction l as [|a l IH]; [reflexivity|].
  destruct a; simpl; try exact IH.
  rewrite IH. reflexivity.
Qed.

Lemma or_else_list l : PyJson.or_else (JArr l) (JArr []) = JArr l.
Proof. destruct l; reflexivity. Qed.

(** A list of objects is flattened to the list of one of their fields. *)
Lemma flat_names_of_list kvs f k l :
  PyJson.lookup f kvs = Some (JArr l) ->
  FetchIssue.flat_names (JObj kvs) f k
  = Ok (JArr (map (field k) (filter PyJson.is_dict l))).
Proof.
  intros H. unfold FetchIssue.flat_names. rewrite get_obj, H.
  cbn [rbind]. rewrite or_else_list. cbn [PyJson.iter rbind].
  rewrite mapM_get_dicts. reflexivity.
Qed.

Lemma normalize_issue_fields kvs issue :
  FetchIssue.normalize_issue (JObj kvs) = Ok issue ->
  exists author assignees labels,
    FetchIssue.author_login (JObj kvs) = Ok author
    /\ FetchIssue.flat_names (JObj kvs) "assignees" "login" = Ok assignees
    /\ FetchIssue.flat_names (JObj kvs) "labels" "name" = Ok labels
    /\ PyJson.index issue "author" = Ok author
    /\ PyJson.index issue "assignees" = Ok assignees
    /\ PyJson.index issue "labels" = Ok labels.
Proof.
  unfold FetchIssue.normalize_issue. rewrite !get_obj. cbn [rbind].
  intros H. rbind_inv H. injection H as <-.
  do 3 eexists. repeat split; reflexivity.
Qed.

(** [extend] appends the nodes of a connection as they are. *)
Lemma extend_nodes acc c ns :
  PyJson.get c "nodes" = Ok (JArr ns) ->
  FetchPrComments.extend acc c = Ok (acc ++ ns)%list.
Proof.
  intros H. unfold FetchPrComments.extend. rewrite H. cbn [rbind].
  rewrite or_else_list. reflexivity.
Qed.

(** What an iteration that ended well did, step by step. *)
Lemma absorb_inv owner repo st payload st' :
  FetchPrComments.absorb owner repo st payload = Ok st' ->
  exists pr meta c r t,
    rbind (FetchPrComments.index2 payload "data" "repository")
          (fun x => PyJson.index x "pullRequest") = Ok pr
    /\ match FetchPrComments.pr_meta st with
       | None => FetchPrComments.make_meta pr owner repo
       | Some m => Ok m
       end = Ok meta
    /\ PyJson.index pr "comments" = Ok c
    /\ PyJson.index pr "reviews" = Ok r
    /\ PyJson.index pr "reviewThreads" = Ok t
    /\ FetchPrComments.extend (FetchPrComments.conversation_comments st) c
       = Ok (FetchPrComments.conversation_comments st')
    /\ FetchPrComments.extend (FetchPrComments.reviews st) r
       = Ok (FetchPrComments.reviews st')
    /\ FetchPrComments.extend (FetchPrComments.review_threads st) t
       = Ok (FetchPrComments.review_threads st')
    /\ FetchPrComments.next_cursor c = Ok (FetchPrComments.comments_cursor st')
    /\ FetchPrComments.next_cursor r = Ok (FetchPrComments.reviews_cursor st')
    /\ FetchPrComments.next_cursor t = Ok (FetchPrComments.threads_cursor st')
    /\ FetchPrComments.pr_meta st' = Some meta.
Proof.
  unfold FetchPrComments.absorb. intros H. rbind_inv H. injection H as <-.
  do 5 eexists. cbn [FetchPrComments.conversation_comments
    FetchPrComments.reviews FetchPrComments.review_threads
    FetchPrComments.comments_cursor FetchPrComments.reviews_cursor
    FetchPrComments.threads_cursor FetchPrComments.pr_meta].
  repeat split; eassumption.
Qed.

End Reshaping.

(** C3, refuted as stated.  A comment emitted by the conversation fetcher
    keeps its author as the nested object of the response. *)
Lemma conversation_comment_author_stays_nested :
  ~ (forall (fuel : nat) (res : json) (comments : list json),
       fst (exec (Mock.github Mock.srv_1_1_1)
              (FetchPrComments.fetch_all
                 (Mock.loads (Mock.payloads Mock.srv_1_1_1))
                 fuel (JStr "acme") (JStr "widget") 7) tt)
       = Returned res ->
       PyJson.get res "conversation_comments" = Ok (JArr comments) ->
       forallb author_is_flat comments = true).
Proof.
  intros H.
  assert (E : exists res comments,
             fst (exec (Mock.github Mock.srv_1_1_1)
                    (FetchPrComments.fetch_all
                       (Mock.loads (Mock.payloads Mock.srv_1_1_1))
                       1 (JStr "acme") (JStr "widget") 7) tt)
             = Returned res
             /\ PyJson.get res "conversation_comments" = Ok (JArr comments)
             /\ forallb author_is_flat comments = false).
  { vm_compute. do 2 eexists. repeat split. }
  destruct E as [res [comments [E1 [E2 E3]]]].
  rewrite (H 1%nat res comments E1 E2) in E3. discriminate E3.
Qed.

(** C3, amended.  The issue pipeline alone reshapes: the author of the issue
    and of each comment becomes the login it holds, the assignees and the
    labels become the lists of their logins and names.  The conversation
    fetcher appends the nodes of each response to its three sequences as
    they are, and the diff fetcher writes the metadata object as the client
    gave it. *)
Theorem reshaping_is_done_by_the_issue_pipeline :
  (forall kvs akvs login,
     PyJson.lookup "author" kvs = Some (JObj akvs) ->
     PyJson.lookup "login" akvs = Some login ->
     exists out,
       FetchIssue.normalize_comment (JObj kvs) = Ok out
       /\ PyJson.index out "author" = Ok login)
  /\ (forall kvs akvs login issue,
        PyJson.lookup "author" kvs = Some (JObj akvs) ->
        PyJson.lookup "login" akvs = Some login ->
        FetchIssue.normalize_issue (JObj kvs) = Ok issue ->
        PyJson.index issue "author" = Ok login)
  /\ (forall kvs ls issue,
        PyJson.lookup "labels" kvs = Some (JArr ls) ->
        FetchIssue.normalize_issue (JObj kvs) = Ok issue ->
        PyJson.index issue "labels"
        = Ok (JArr (map (field "name") (filter PyJson.is_dict ls))))
  /\ (forall kvs ls issue,
        PyJson.lookup "assignees" kvs = Some (JArr ls) ->
        FetchIssue.normalize_issue (JObj kvs) = Ok issue ->
        PyJson.index issue "assignees"
        = Ok (JArr (map (field "login") (filter PyJson.is_dict ls))))
  /\ (forall owner repo st payload st',
        FetchPrComments.absorb owner repo st payload = Ok st' ->
        exists pr c r t,
          rbind (FetchPrComments.index2 payload "data" "repository")
                (fun x => PyJson.index x "pullRequest") = Ok pr
          /\ PyJson.index pr "comments" = Ok c
          /\ PyJson.index pr "reviews" = Ok r
          /\ PyJson.index pr "reviewThreads" = Ok t
          /\ (forall ns, PyJson.get c "nodes" = Ok (JArr ns) ->
                FetchPrComments.conversation_comments st'
                = (FetchPrComments.conversation_comments st ++ ns)%list)
          /\ (forall ns, PyJson.get r "nodes" = Ok (JArr ns) ->
                FetchPrComments.reviews st'
                = (FetchPrComments.reviews st ++ ns)%list)
          /\ (forall ns, PyJson.get t "nodes" = Ok (JArr ns) ->
                FetchPrComments.review_threads st'
                = (FetchPrComments.review_threads st ++ ns)%list))
  /\ (forall json_loads prog a r e1 o1 view e2 diff e3 pr_json,
        FetchPrDiff._parse_pr_ref a = Ok r ->
        json_loads view = inl pr_json ->
        fst (exec scripted (FetchPrDiff.main json_loads [prog; a])
               [Completed 0 o1 e1; Completed 0 view e2; Completed 0 diff e3])
        = Returned (Outcome 0
                      (line (PyJson.dumps
                               (JObj [("pr", pr_json); ("diff", JStr diff)])))
                      "")).
Proof.
  split; [|split; [|split; [|split; [|split]]]].
  - intros kvs akvs login Ha Hl.
    unfold FetchIssue.normalize_comment.
    rewrite (author_login_of_object _ _ _ Ha Hl), !get_obj.
    eexists. split; reflexivity.
  - intros kvs akvs login issue Ha Hl Hn.
    destruct (normalize_issue_fields _ _ Hn) as (au & _ & _ & E & _ & _ & F & _).
    rewrite (author_login_of_object _ _ _ Ha Hl) in E. congruence.
  - intros kvs ls issue Hl Hn.
    destruct (normalize_issue_fields _ _ Hn) as (_ & _ & la & _ & _ & E & _ & _ & F).
    rewrite (flat_names_of_list _ _ _ _ Hl) in E. congruence.
  - intros kvs ls issue Hl Hn.
    destruct (normalize_issue_fields _ _ Hn) as (_ & asg & _ & _ & E & _ & _ & F & _).
    rewrite (flat_names_of_list _ _ _ _ Hl) in E. congruence.
  - intros owner repo st payload st' H.
    destruct (absorb_inv _ _ _ _ _ H)
      as (pr & meta & c & r & t & Hp & _ & Hc & Hr & Ht & Ec & Er & Et & _).
    exists pr, c, r, t. repeat split; try assumption.
    + intros ns Hn. rewrite (extend_nodes _ _ _ Hn) in Ec. congruence.
    + intros ns Hn. rewrite (extend_nodes _ _ _ Hn) in Er. congruence.
    + intros ns Hn. rewrite (extend_nodes _ _ _ Hn) in Et. congruence.
  - intros json_loads prog a r e1 o1 view e2 diff e3 pr_json Hp Hl.
    unfold FetchPrDiff.main. cbn [length Nat.ltb Nat.leb Nat.eqb nth].
    rewrite Hp. cbn [lift bind].
    unfold FetchPrDiff._ensure_gh_authenticated, FetchPrDiff._get_pr_view_json,
      FetchPrDiff._get_pr_diff, FetchPrDiff._run_json, FetchPrDiff._run.
    cbn [bind catch exec scripted respond fst snd negb Z.eqb].
    rewrite Hl. reflexivity.
Qed.

(** Instances: a comment by bob, the labels of an issue, a diff run. *)
Lemma reshaping_is_done_by_the_issue_pipeline_witness :
  (exists out,
     FetchIssue.normalize_comment
       (JObj [("id", JStr "IC_1"); ("author", JObj [("login", JStr "bob")]);
              ("body", JStr "me too")]) = Ok out
     /\ PyJson.index out "author" = Ok (JStr "bob"))
  /\ (exists issue,
        FetchIssue.normalize_issue (JObj Mock.full_issue) = Ok issue
        /\ PyJson.index issue "labels"
           = Ok (JArr (map (field "name")
                         (filter PyJson.is_dict [JObj [("name", JStr "bug")]]))))
  /\ fst (exec scripted
            (FetchPrDiff.main (Mock.loads [Mock.pr_view])
               ["fetch_pr_diff.py"; "https://github.com/acme/widget/pull/7"])
            [Completed 0 "" ""; Completed 0 (PyJson.dumps Mock.pr_view) "";
             Completed 0 "diff --git a/w b/w" ""])
     = Returned (Outcome 0
                   (line (PyJson.dumps
                            (JObj [("pr", Mock.pr_view);
                                   ("diff", JStr "diff --git a/w b/w")])))
                   "").
Proof.
  destruct reshaping_is_done_by_the_issue_pipeline
    as (Hc & _ & Hl & _ & _ & Hd).
  split; [|split].
  - apply (Hc _ [("login", JStr "bob")] (JStr "bob")); reflexivity.
  - destruct (FetchIssue.normalize_issue (JObj Mock.full_issue))
      as [issue|e] eqn:Hi; [|vm_compute in Hi; discriminate Hi].
    exists issue. split; [reflexivity|].
    apply (Hl Mock.full_issue [JObj [("name", JStr "bug")]] issue);
      [reflexivity | exact Hi].
  - apply (Hd (Mock.loads [Mock.pr_view]) "fetch_pr_diff.py"
              "https://github.com/acme/widget/pull/7"
              "https://github.com/acme/widget/pull/7").
    + reflexivity.
    + vm_compute. reflexivity.
Defined.

(** * Runs against a responder *)

Section Runs.


(** Replaying the results of a run, in order, gives the run again. *)
Lemma exec_replay {A} (m : io A) :
  forall (W : world) (w : wstate W),
    exec scripted m (responses (exec W m w)) = exec W m w.
Proof.
  unfold responses.
  induction m as [a | e | cmd input k IH |]; intros W w; try reflexivity.
  cbn [exec].
  destruct (respond W w cmd input) as [p w'].
  specialize (IH p W w').
  destruct (exec W (k p) w') as [r tr] eqn:E.
  cbn [snd map call_result scripted respond].
  cbn [snd] in IH. rewrite IH. reflexivity.
Qed.

(** A handler that always returns leaves no exception behind. *)
Lemma exec_catch_returns {A} (m : io A) (h : exn -> A) :
  forall (W : world) (w : wstate W) (e : exn),
    fst (exec W (catch m (fun x => Ret (h x))) w) <> Raised e.
Proof.
  induction m as [a | e' | cmd input k IH |]; intros W w e; cbn [catch exec];
    try discriminate.
  destruct (respond W w cmd input) as [p w'].
  specialize (IH p W w' e).
  destruct (exec W (catch (k p) (fun x => Ret (h x))) w') as [r tr].
  exact IH.
Qed.

End Runs.


(** C7.  When the probe of the authentication status fails, by a non-zero
    exit status or because the client cannot be started, each program that
    has reached the probe stops there: the probe is the only process
    started, the exit status is 1 and standard error holds the request to
    authenticate and nothing of the failure of the probe. *)
Theorem failed_probe_is_reported_as_unauthenticated
    (json_loads : string -> json + string) (fuel : nat)
    (W : world) (w : wstate W) (prog : string) :
  probe_failed (fst (respond W w auth_probe None)) ->
  let unauthenticated :=
    (Returned (Outcome 1 "" (line auth_message)),
     [Call auth_probe None (fst (respond W w auth_probe None))]) in
  (forall a n, FetchIssue._parse_issue_number a = Ok n ->
     exec W (FetchIssue.main json_loads [prog; a]) w = unauthenticated)
  /\ (forall a r, FetchPrDiff._parse_pr_ref a = Ok r ->
        exec W (FetchPrDiff.main json_loads [prog; a]) w = unauthenticated)
  /\ exec W (FetchPrDiff.main json_loads [prog]) w = unauthenticated
  /\ (forall a r, FetchPrComments._parse_pr_ref a = Ok r ->
        exec W (FetchPrComments.main json_loads fuel [prog; a]) w
        = unauthenticated)
  /\ exec W (FetchPrComments.main json_loads fuel [prog]) w = unauthenticated.
Proof.
  intros Hp unauthenticated. subst unauthenticated. unfold auth_probe in *.
  repeat split; try intros a r Ha;
    unfold FetchIssue.main, FetchPrDiff.main, FetchPrComments.main;
    cbn [length Nat.ltb Nat.leb Nat.eqb negb nth]; try rewrite Ha;
    unfold FetchIssue._ensure_gh_authenticated, FetchIssue._run,
      FetchPrDiff._ensure_gh_authenticated, FetchPrDiff._run,
      FetchPrComments._ensure_gh_authenticated, FetchPrComments._run;
    cbn [lift bind catch exec];
    destruct (respond W w ["gh"; "auth"; "status"] None) as [p w'];
    cbn [fst] in *; destruct p as [rc so se | e]; cbn [probe_failed] in Hp;
    try reflexivity;
    (destruct (Z.eqb_spec rc 0); [contradiction | reflexivity]).
Qed.

(** Instances: the client reports that nobody is logged in. *)
Lemma failed_probe_is_reported_as_unauthenticated_witness :
  exec scripted
       (FetchIssue.main (Mock.loads []) ["fetch_issue.py"; "#42"])
       [Completed 1 "" "You are not logged into any GitHub hosts."]
  = (Returned (Outcome 1 "" (line auth_message)),
     [Call auth_probe None
           (Completed 1 "" "You are not logged into any GitHub hosts.")])
  /\ exec scripted
          (FetchPrComments.main (Mock.loads []) 3 ["fetch_pr_comments.py"])
          [Completed 1 "" "You are not logged into any GitHub hosts."]
     = (Returned (Outcome 1 "" (line auth_message)),
        [Call auth_probe None
              (Completed 1 "" "You are not logged into any GitHub hosts.")]).
Proof.
  assert (Hp : probe_failed
                 (fst (respond scripted
                         [Completed 1 "" "You are not logged into any GitHub hosts."]
                         auth_probe None))).
  { simpl. discriminate. }
  split.
  - apply (proj1 (failed_probe_is_reported_as_unauthenticated
                    (Mock.loads []) 3 scripted
                    [Completed 1 "" "You are not logged into any GitHub hosts."]
                    "fetch_issue.py" Hp) "#42" 42%Z).
    reflexivity.
  - apply (proj2 (proj2 (proj2 (proj2
             (failed_probe_is_reported_as_unauthenticated
                (Mock.loads []) 3 scripted
                [Completed 1 "" "You are not logged into any GitHub hosts."]
                "fetch_pr_comments.py" Hp))))).
Defined.


(** * Where exceptions end *)

Section TopLevel.

Variable json_loads : string -> json + string.

(** [fetch_issue.py] parses inside its [try] block: no exception leaves
    [main], and the exit status is 2 exactly when the argument count is
    wrong. *)
Lemma issue_main_catches_every_exception (W : world) (w : wstate W)
    (argv : list string) (e : exn) :
  fst (exec W (FetchIssue.main json_loads argv) w) <> Raised e.
Proof.
  unfold FetchIssue.main.
  destruct (negb (length argv =? 2)%nat); [discriminate|].
  apply (exec_catch_returns _ (fun x => Outcome 1 "" (line (exn_str x)))).
Qed.

Lemma issue_main_usage (W : world) (w : wstate W) (argv : list string) :
  length argv <> 2%nat ->
  exec W (FetchIssue.main json_loads argv) w
  = (Returned (Outcome 2 "" (line FetchIssue.usage)), []).
Proof.
  intros H. unfold FetchIssue.main.
  destruct (Nat.eqb_spec (length argv) 2); [contradiction | reflexivity].
Qed.

(** The pull-request scripts let an exception out of [main] in one case
    only: the parser refused the argument. *)
Lemma pr_diff_main_raises_only_from_parser (W : world) (w : wstate W)
    (argv : list string) (e : exn) :
  fst (exec W (FetchPrDiff.main json_loads argv) w) = Raised e ->
  length argv = 2%nat /\ FetchPrDiff._parse_pr_ref (nth 1 argv "") = Err e.
Proof.
  unfold FetchPrDiff.main.
  destruct (2 <? length argv)%nat; [discriminate|].
  destruct (Nat.eqb_spec (length argv) 2) as [Hl|Hl].
  - destruct (FetchPrDiff._parse_pr_ref (nth 1 argv "")) as [r|e'];
      cbn [lift bind].
    + intros H.
      exfalso. revert H.
      apply (exec_catch_returns _ (fun x => Outcome 1 "" (line (exn_str x)))).
    + cbn [exec fst]. intros [= ->]. split; [exact Hl | reflexivity].
  - cbn [bind]. intros H. exfalso. revert H.
    apply (exec_catch_returns _ (fun x => Outcome 1 "" (line (exn_str x)))).
Qed.

Lemma pr_comments_main_raises_only_from_parser (fuel : nat) (W : world)
    (w : wstate W) (argv : list string) (e : exn) :
  fst (exec W (FetchPrComments.main json_loads fuel argv) w) = Raised e ->
  length argv = 2%nat /\ FetchPrComments._parse_pr_ref (nth 1 argv "") = Err e.
Proof.
  unfold FetchPrComments.main.
  destruct (2 <? length argv)%nat; [discriminate|].
  destruct (Nat.eqb_spec (length argv) 2) as [Hl|Hl].
  - destruct (FetchPrComments._parse_pr_ref (nth 1 argv "")) as [r|e'];
      cbn [lift bind].
    + intros H.
      exfalso. revert H.
      apply (exec_catch_returns _ (fun x => Outcome 1 "" (line (exn_str x)))).
    + cbn [exec fst]. intros [= ->]. split; [exact Hl | reflexivity].
  - cbn [bind]. intros H. exfalso. revert H.
    apply (exec_catch_returns _ (fun x => Outcome 1 "" (line (exn_str x)))).
Qed.

End TopLevel.

(** C6, the run that breaks it.  Given an argument that is no reference, the
    two pull-request scripts raise the [ValueError] of the parser out of
    [main], before any process is started: the parser is called ahead of the
    [try] block, so the handler that prints the message and exits with
    status 1 is never reached.  [fetch_issue.py], which parses inside the
    block, ends with status 1 and the message alone on standard error. *)
Theorem invalid_pr_reference_escapes_main
    (json_loads : string -> json + string) (fuel : nat)
    (W : world) (w : wstate W) :
  exec W (FetchPrComments.main json_loads fuel ["fetch_pr_comments.py"; "abc"]) w
  = (Raised (Exn ValueError
               "Invalid PR reference: 'abc'. Expected a number (e.g. 3698), #3698, or a PR URL."),
     [])
  /\ exec W (FetchPrDiff.main json_loads ["fetch_pr_diff.py"; "abc"]) w
     = (Raised (Exn ValueError
                  "Invalid PR reference: 'abc'. Expected a number (e.g. 3698), #3698, or a PR URL."),
        [])
  /\ exec W (FetchIssue.main json_loads ["fetch_issue.py"; "abc"]) w
     = (Returned
          (Outcome 1 ""
             (line "Invalid issue number: 'abc'. Expected something like 123 or #123.")),
        []).
Proof. repeat split. Qed.

(** * The pagination loop *)

Section Loop.

Variable json_loads : string -> json + string.
Variable W : world.
Variables (owner repo : json) (number : Z).

Let request (st : FetchPrComments.loop_state) : list string :=
  FetchPrComments.graphql_cmd owner repo number
    (FetchPrComments.comments_cursor st) (FetchPrComments.reviews_cursor st)
    (FetchPrComments.threads_cursor st).

(** One iteration, case by case. *)
Lemma fetch_loop_step (fuel : nat) (st : FetchPrComments.loop_state)
    (w : wstate W) :
  exec W (FetchPrComments.fetch_loop json_loads (S fuel) owner repo number st) w
  = let '(p, w') := respond W w (request st) (Some FetchPrComments.QUERY) in
    let c := Call (request st) (Some FetchPrComments.QUERY) p in
    match p with
    | NotStarted e => (Raised e, [c])
    | Completed returncode stdout stderr =>
        if negb (returncode =? 0)%Z then
          (Raised (Exn RuntimeError
                     ("Command failed: " ++ Py.join " " (request st)
                      ++ Py.chr Py.newline ++ Py.strip stderr)), [c])
        else
          match json_loads stdout with
          | inr msg =>
              (Raised (Exn RuntimeError
                         ("Failed to parse JSON from command output: " ++ msg
                          ++ Py.chr Py.newline ++ "Raw:" ++ Py.chr Py.newline
                          ++ stdout)), [c])
          | inl payload =>
              match FetchPrComments.absorb owner repo st payload with
              | Err e => (Raised e, [c])
              | Ok st' =>
                  if FetchPrComments.finished st'
                  then (Returned (FetchPrComments.result_of st'), [c])
                  else
                    let '(r, tr) :=
                      exec W (FetchPrComments.fetch_loop json_loads fuel
                                owner repo number st') w' in
                    (r, c :: tr)
              end
          end
    end.
Proof.
  cbn [FetchPrComments.fetch_loop].
  unfold FetchPrComments._gh_api_graphql, FetchPrComments._run_json,
    FetchPrComments._run.
  cbn [bind exec]. fold (request st).
  destruct (respond W w (request st) (Some FetchPrComments.QUERY)) as [p w'].
  destruct p as [rc so se | e]; [|reflexivity].
  destruct (negb (rc =? 0)%Z); [reflexivity|].
  cbn [bind]. destruct (json_loads so) as [payload | msg]; [|reflexivity].
  cbn [bind]. destruct (FetchPrComments.absorb owner repo st payload) as [st'|e];
    [|reflexivity].
  cbn [lift bind]. destruct (FetchPrComments.finished st'); [reflexivity|].
  destruct (exec W (FetchPrComments.fetch_loop json_loads fuel owner repo
                      number st') w') as [r tr].
  reflexivity.
Qed.

(** Once set, the metadata is carried to the end of the loop untouched. *)
Lemma fetch_loop_keeps_meta (fuel : nat) :
  forall (st : FetchPrComments.loop_state) (w : wstate W) (m res : json)
         (tr : list call),
    FetchPrComments.pr_meta st = Some m ->
    exec W (FetchPrComments.fetch_loop json_loads fuel owner repo number st) w
    = (Returned res, tr) ->
    PyJson.get res "pull_request" = Ok m.
Proof.
  induction fuel as [|fuel IH]; intros st w m res tr Hm H.
  - discriminate H.
  - rewrite fetch_loop_step in H.
    destruct (respond W w (request st) (Some FetchPrComments.QUERY)) as [p w'].
    destruct p as [rc so se | e]; [|discriminate H].
    destruct (negb (rc =? 0)%Z); [discriminate H|].
    destruct (json_loads so) as [payload | msg]; [|discriminate H].
    destruct (FetchPrComments.absorb owner repo st payload) as [st'|e] eqn:Ea;
      [|discriminate H].
    destruct (absorb_inv _ _ _ _ _ Ea)
      as (pr & meta & _ & _ & _ & _ & Hmeta & _ & _ & _ & _ & _ & _ & _ & _ & _ & Hm').
    rewrite Hm in Hmeta. injection Hmeta as <-.
    destruct (FetchPrComments.finished st').
    + injection H as <- _. unfold FetchPrComments.result_of. rewrite Hm'.
      reflexivity.
    + destruct (exec W (FetchPrComments.fetch_loop json_loads fuel owner repo
                          number st') w') as [r tr'] eqn:E.
      injection H as -> _. exact (IH st' w' m res tr' Hm' E).
Qed.

(** The cursor an iteration leaves for a collection: the token of the page
    when the page reports more, none otherwise. *)
Lemma next_cursor_spec (c cursor : json) :
  FetchPrComments.next_cursor c = Ok cursor ->
  exists more,
    FetchPrComments.index2 c "pageInfo" "hasNextPage" = Ok more
    /\ (PyJson.truthy more = true ->
        FetchPrComments.index2 c "pageInfo" "endCursor" = Ok cursor)
    /\ (PyJson.truthy more = false -> cursor = JNull).
Proof.
  unfold FetchPrComments.next_cursor. intros H. rbind_inv H.
  eexists. split; [reflexivity|].
  destruct (PyJson.truthy a).
  - split; [intros _; exact H | discriminate].
  - injection H as <-. split; [discriminate | reflexivity].
Qed.

End Loop.

(** C8.  When [fetch_all] returns, the metadata of the pull request in its
    result is made of the number, url, title and state of the response to
    the first request, the one sent without any cursor, and of the owner and
    repository it was called with; whatever the later responses hold takes
    no part in it. *)
Theorem pull_request_metadata_comes_from_first_response
    (json_loads : string -> json + string) (W : world) (w : wstate W)
    (fuel : nat) (owner repo : json) (number : Z)
    (res : json) (tr : list call) :
  exec W (FetchPrComments.fetch_all json_loads fuel owner repo number) w
  = (Returned res, tr) ->
  exists first rest stdout stderr payload pr vn vu vt vs,
    tr = first :: rest
    /\ call_cmd first
       = FetchPrComments.graphql_cmd owner repo number JNull JNull JNull
    /\ call_result first = Completed 0 stdout stderr
    /\ json_loads stdout = inl payload
    /\ rbind (FetchPrComments.index2 payload "data" "repository")
             (fun x => PyJson.index x "pullRequest") = Ok pr
    /\ PyJson.index pr "number" = Ok vn
    /\ PyJson.index pr "url" = Ok vu
    /\ PyJson.index pr "title" = Ok vt
    /\ PyJson.index pr "state" = Ok vs
    /\ PyJson.get res "pull_request"
       = Ok (JObj [("number", vn); ("url", vu); ("title", vt); ("state", vs);
                   ("owner", owner); ("repo", repo)]).
Proof.
  unfold FetchPrComments.fetch_all. intros H.
  destruct fuel as [|fuel]; [discriminate H|].
  rewrite fetch_loop_step in H.
  change (FetchPrComments.comments_cursor FetchPrComments.initial_state)
    with JNull in H.
  change (FetchPrComments.reviews_cursor FetchPrComments.initial_state)
    with JNull in H.
  change (FetchPrComments.threads_cursor FetchPrComments.initial_state)
    with JNull in H.
  destruct (respond W w _ (Some FetchPrComments.QUERY)) as [p w'].
  destruct p as [rc so se | e]; [|discriminate H].
  destruct (Z.eqb_spec rc 0) as [->|]; [|discriminate H]. cbn [negb] in H.
  destruct (json_loads so) as [payload | msg] eqn:El; [|discriminate H].
  destruct (FetchPrComments.absorb owner repo FetchPrComments.initial_state
              payload) as [st'|e] eqn:Ea; [|discriminate H].
  destruct (absorb_inv _ _ _ _ _ Ea)
    as (pr & meta & _ & _ & _ & Hpr & Hmeta & _ & _ & _ & _ & _ & _ & _ & _ & _ & Hm').
  cbn [FetchPrComments.pr_meta FetchPrComments.initial_state] in Hmeta.
  unfold FetchPrComments.make_meta in Hmeta. rbind_inv Hmeta.
  injection Hmeta as <-.
  assert (Hres : PyJson.get res "pull_request"
                 = Ok (JObj [("number", a); ("url", a0); ("title", a1);
                             ("state", a2); ("owner", owner); ("repo", repo)])
                 /\ exists rest,
                      tr = Call (FetchPrComments.graphql_cmd owner repo number
                                   JNull JNull JNull)
                                (Some FetchPrComments.QUERY)
                                (Completed 0 so se) :: rest).
  { destruct (FetchPrComments.finished st').
    - injection H as <- <-. split.
      + unfold FetchPrComments.result_of. rewrite Hm'. reflexivity.
      + eexists. reflexivity.
    - destruct (exec W (FetchPrComments.fetch_loop json_loads fuel owner repo
                          number st') w') as [r tr'] eqn:Erun.
      injection H as -> <-. split.
      + exact (fetch_loop_keeps_meta json_loads W owner repo number fuel
                 st' w' _ res tr' Hm' Erun).
      + eexists. reflexivity. }
  destruct Hres as [Hget [rest ->]].
  exists (Call (FetchPrComments.graphql_cmd owner repo number JNull JNull JNull)
               (Some FetchPrComments.QUERY) (Completed 0 so se)),
    rest, so, se, payload, pr, a, a0, a1, a2.
  repeat split; assumption.
Qed.

(** An instance: a run of two round trips. *)
Lemma pull_request_metadata_comes_from_first_response_witness :
  exists res tr first rest stdout stderr payload pr vn vu vt vs,
    exec (Mock.github Mock.srv_1_2_1)
         (FetchPrComments.fetch_all (Mock.loads (Mock.payloads Mock.srv_1_2_1))
            4 (JStr "acme") (JStr "widget") 7) tt
    = (Returned res, tr)
    /\ tr = first :: rest
    /\ call_cmd first
       = FetchPrComments.graphql_cmd (JStr "acme") (JStr "widget") 7
           JNull JNull JNull
    /\ call_result first = Completed 0 stdout stderr
    /\ Mock.loads (Mock.payloads Mock.srv_1_2_1) stdout = inl payload
    /\ rbind (FetchPrComments.index2 payload "data" "repository")
             (fun x => PyJson.index x "pullRequest") = Ok pr
    /\ PyJson.index pr "number" = Ok vn
    /\ PyJson.index pr "url" = Ok vu
    /\ PyJson.index pr "title" = Ok vt
    /\ PyJson.index pr "state" = Ok vs
    /\ PyJson.get res "pull_request"
       = Ok (JObj [("number", vn); ("url", vu); ("title", vt); ("state", vs);
                   ("owner", JStr "acme"); ("repo", JStr "widget")]).
Proof.
  destruct (exec (Mock.github Mock.srv_1_2_1)
              (FetchPrComments.fetch_all
                 (Mock.loads (Mock.payloads Mock.srv_1_2_1))
                 4 (JStr "acme") (JStr "widget") 7) tt) as [r tr] eqn:E.
  destruct r as [res | e |];
    [| vm_compute in E; discriminate E | vm_compute in E; discriminate E].
  destruct (pull_request_metadata_comes_from_first_response _ _ _ _ _ _ _ _ _ E)
    as (first & rest & so & se & payload & pr & vn & vu & vt & vs & H).
  exists res, tr, first, rest, so, se, payload, pr, vn, vu, vt, vs.
  split; [reflexivity | exact H].
Defined.

(** The runs of the paged responder the next two results rest on. *)
Lemma run_one_two_one :
  exec (Mock.github Mock.srv_1_2_1)
       (FetchPrComments.fetch_all (Mock.loads (Mock.payloads Mock.srv_1_2_1))
          9 (JStr "acme") (JStr "widget") 7) tt
  = (Returned
       (JObj [("pull_request",
               JObj [("number", JNum 7);
                     ("url", JStr "https://github.com/acme/widget/pull/7");
                     ("title", JStr "Add widget"); ("state", JStr "OPEN");
                     ("owner", JStr "acme"); ("repo", JStr "widget")]);
              ("conversation_comments",
               JArr [Mock.node "c1"; Mock.node "c1"]);
              ("reviews", JArr [Mock.node "r1"; Mock.node "r2"]);
              ("review_threads", JArr [Mock.node "t1"; Mock.node "t1"])]),
     [Call (FetchPrComments.graphql_cmd (JStr "acme") (JStr "widget") 7
              JNull JNull JNull)
           (Some FetchPrComments.QUERY)
           (Completed 0 (PyJson.dumps (Mock.payload_at Mock.srv_1_2_1 0 0 0)) "");
      Call (FetchPrComments.graphql_cmd (JStr "acme") (JStr "widget") 7
              JNull (JStr "R1") JNull)
           (Some FetchPrComments.QUERY)
           (Completed 0 (PyJson.dumps (Mock.payload_at Mock.srv_1_2_1 0 1 0)) "")]).
Proof. vm_compute. reflexivity. Qed.

(** C1, the run that breaks it.  Against a responder that serves one page of
    comments, two pages of reviews and one page of threads, [fetch_all]
    makes two round trips; the second request carries the cursor of the
    reviews alone, the responder answers it with the first page of comments
    and of threads again, and the result holds the one comment twice and
    the one thread twice. *)
Theorem exhausted_collection_is_fetched_again :
  let run :=
    exec (Mock.github Mock.srv_1_2_1)
         (FetchPrComments.fetch_all (Mock.loads (Mock.payloads Mock.srv_1_2_1))
            9 (JStr "acme") (JStr "widget") 7) tt in
  round_trips run = 2%nat
  /\ map (sent_cursor "commentsCursor") (snd run) = [None; None]
  /\ map (sent_cursor "reviewsCursor") (snd run) = [None; Some "R1"]
  /\ exists res,
       fst run = Returned res
       /\ field "conversation_comments" res
          = JArr [Mock.node "c1"; Mock.node "c1"]
       /\ field "reviews" res = JArr [Mock.node "r1"; Mock.node "r2"]
       /\ field "review_threads" res = JArr [Mock.node "t1"; Mock.node "t1"].
Proof.
  intros run. subst run. rewrite run_one_two_one.
  repeat split. eexists. repeat split.
Qed.

(** C2, the run that breaks it.  Against a responder that serves two pages
    of comments, three pages of reviews and one page of threads, the cursor
    of the comments is cleared after the second round trip, left out of the
    third request, set again from the answer to that request, and sent in
    the fourth; the loop ends after six round trips. *)
Theorem cleared_cursor_is_sent_again :
  let run :=
    exec (Mock.github Mock.srv_2_3_1)
         (FetchPrComments.fetch_all (Mock.loads (Mock.payloads Mock.srv_2_3_1))
            9 (JStr "acme") (JStr "widget") 7) tt in
  map (sent_cursor "commentsCursor") (snd run)
  = [None; Some "C1"; None; Some "C1"; None; Some "C1"]
  /\ map (sent_cursor "reviewsCursor") (snd run)
     = [None; Some "R1"; Some "R2"; None; Some "R1"; Some "R2"]
  /\ round_trips run = 6%nat
  /\ exists res,
       fst run = Returned res
       /\ field "conversation_comments" res
          = JArr [Mock.node "c1"; Mock.node "c2"; Mock.node "c1";
                  Mock.node "c2"; Mock.node "c1"; Mock.node "c2"].
Proof.
  vm_compute. repeat split. eexists. repeat split.
Qed.

(** * What the loop accumulates *)

Section Accumulation.

Variable json_loads : string -> json + string.
Variables (owner repo : json) (number : Z).




(** A run of the loop that returns has made one round trip for each of a
    list of payloads that carry the loop to its end. *)
Lemma fetch_loop_returns_rounds (W : world) (fuel : nat) :
  forall (st : FetchPrComments.loop_state) (w : wstate W) (res : json)
         (tr : list call),
    exec W (FetchPrComments.fetch_loop json_loads fuel owner repo number st) w
    = (Returned res, tr) ->
    exists ps st',
      Forall2 (answered json_loads) tr ps
      /\ rounds owner repo st ps = Some st'
      /\ res = FetchPrComments.result_of st'.
Proof.
  induction fuel as [|fuel IH]; intros st w res tr H; [discriminate H|].
  rewrite fetch_loop_step in H.
  destruct (respond W w _ (Some FetchPrComments.QUERY)) as [p w'].
  destruct p as [rc so se | e]; [|discriminate H].
  destruct (Z.eqb_spec rc 0) as [->|]; [|discriminate H]. cbn [negb] in H.
  destruct (json_loads so) as [payload | msg] eqn:El; [|discriminate H].
  destruct (FetchPrComments.absorb owner repo st payload) as [st'|e] eqn:Ea;
    [|discriminate H].
  destruct (FetchPrComments.finished st') eqn:Ef.
  - injection H as <- <-. exists [payload], st'. split; [|split].
    + constructor; [|constructor]. exists so, se. split; [reflexivity | exact El].
    + cbn [rounds]. rewrite Ea, Ef. reflexivity.
    + reflexivity.
  - destruct (exec W (FetchPrComments.fetch_loop json_loads fuel owner repo
                        number st') w') as [r tr'] eqn:Erun.
    injection H as -> <-.
    destruct (IH _ _ _ _ Erun) as (ps & st'' & Hall & Hr & ->).
    exists (payload :: ps), st''. split; [|split].
    + constructor; [|exact Hall]. exists so, se.
      split; [reflexivity | exact El].
    + cbn [rounds]. rewrite Ea, Ef. exact Hr.
    + reflexivity.
Qed.



End Accumulation.

(** * Properties of every run *)

Section EveryRun.

Lemma all_rets_bind {A B} (Q : B -> Prop) (m : io A) (f : A -> io B) :
  (forall a, all_rets Q (f a)) -> all_rets Q (bind m f).
Proof.
  intros Hf. induction m as [a | e | cmd input k IH |]; cbn [bind all_rets];
    auto.
Qed.

Lemma all_rets_catch {A} (P : A -> Prop) (m : io A) (h : exn -> io A) :
  all_rets P m -> (forall e, all_rets P (h e)) -> all_rets P (catch m h).
Proof.
  intros Hm Hh. induction m as [a | e | cmd input k IH |];
    cbn [catch all_rets] in *; auto.
Qed.

Lemma all_rets_exec {A} (P : A -> Prop) (m : io A) :
  all_rets P m ->
  forall (W : world) (w : wstate W) (a : A),
    fst (exec W m w) = Returned a -> P a.
Proof.
  induction m as [x | e | cmd input k IH |]; cbn [all_rets exec];
    intros Hm W w a H; try discriminate H.
  - injection H as <-. exact Hm.
  - destruct (respond W w cmd input) as [p w'].
    specialize (IH p (Hm p) W w' a).
    destruct (exec W (k p) w') as [r tr]. exact (IH H).
Qed.

Lemma at_most_mono {A} (m : io A) :
  forall n n' : nat, (n <= n')%nat -> at_most n m -> at_most n' m.
Proof.
  induction m as [x | e | cmd input k IH |]; cbn [at_most]; auto.
  intros n n' Hle H. destruct n as [|n]; [exfalso; exact H|].
  destruct n' as [|n']; [lia|]. intros p. apply (IH p n n'); [lia | apply H].
Qed.

Lemma at_most_bind {A B} (m : io A) (f : A -> io B) (j : nat) :
  (forall a, at_most j (f a)) ->
  forall n : nat, at_most n m -> at_most (n + j) (bind m f).
Proof.
  intros Hf. induction m as [x | e | cmd input k IH |]; cbn [bind at_most];
    auto.
  - intros n _. apply (at_most_mono _ j); [lia | apply Hf].
  - intros n H. destruct n as [|n]; [exfalso; exact H|].
    cbn [Nat.add]. intros p. apply IH, H.
Qed.

Lemma at_most_catch {A} (m : io A) (h : exn -> io A) (j : nat) :
  (forall e, at_most j (h e)) ->
  forall n : nat, at_most n m -> at_most (n + j) (catch m h).
Proof.
  intros Hh. induction m as [x | e | cmd input k IH |]; cbn [catch at_most];
    auto.
  - intros n _. apply (at_most_mono _ j); [lia | apply Hh].
  - intros n H. destruct n as [|n]; [exfalso; exact H|].
    cbn [Nat.add]. intros p. apply IH, H.
Qed.

Lemma at_most_exec {A} (m : io A) :
  forall (n : nat) (W : world) (w : wstate W),
    at_most n m -> (length (snd (exec W m w)) <= n)%nat.
Proof.
  induction m as [x | e | cmd input k IH |]; cbn [at_most exec];
    intros n W w H; try (cbn; lia).
  destruct n as [|n]; [exfalso; exact H|].
  destruct (respond W w cmd input) as [p w'].
  specialize (IH p n W w' (H p)).
  destruct (exec W (k p) w') as [r tr]. cbn [snd length] in *. lia.
Qed.

Lemma at_most_lift {A} (r : result A) : at_most 0 (lift r).
Proof. destruct r; exact I. Qed.

Section WithLoads.

Variable json_loads : string -> json + string.

Lemma at_most_issue_auth : at_most 1 FetchIssue._ensure_gh_authenticated.
Proof. intros p. destruct p as [rc so se|e]; [destruct (negb (rc =? 0)%Z)|]; exact I. Qed.

Lemma at_most_diff_auth : at_most 1 FetchPrDiff._ensure_gh_authenticated.
Proof. intros p. destruct p as [rc so se|e]; [destruct (negb (rc =? 0)%Z)|]; exact I. Qed.

Lemma at_most_comments_auth : at_most 1 FetchPrComments._ensure_gh_authenticated.
Proof. intros p. destruct p as [rc so se|e]; [destruct (negb (rc =? 0)%Z)|]; exact I. Qed.

Lemma at_most_issue_run_json cmd : at_most 1 (FetchIssue._run_json json_loads cmd).
Proof.
  intros p. destruct p as [rc so se|e]; [destruct (negb (rc =? 0)%Z)|];
    try exact I.
  cbn [bind]. destruct (json_loads so); exact I.
Qed.

Lemma at_most_diff_run cmd : at_most 1 (FetchPrDiff._run cmd).
Proof. intros p. destruct p as [rc so se|e]; [destruct (negb (rc =? 0)%Z)|]; exact I. Qed.

Lemma at_most_diff_run_json cmd : at_most 1 (FetchPrDiff._run_json json_loads cmd).
Proof.
  intros p. destruct p as [rc so se|e]; [destruct (negb (rc =? 0)%Z)|];
    try exact I.
  cbn [bind]. destruct (json_loads so); exact I.
Qed.

Lemma at_most_comments_run_json cmd stdin :
  at_most 1 (FetchPrComments._run_json json_loads cmd stdin).
Proof.
  intros p. destruct p as [rc so se|e]; [destruct (negb (rc =? 0)%Z)|];
    try exact I.
  cbn [bind]. destruct (json_loads so); exact I.
Qed.

(** Each iteration of the loop starts one process. *)
Lemma at_most_fetch_loop owner repo number (fuel : nat) :
  forall st,
    at_most fuel (FetchPrComments.fetch_loop json_loads fuel owner repo number st).
Proof.
  induction fuel as [|fuel IH]; intros st; [exact I|].
  cbn [FetchPrComments.fetch_loop].
  refine (at_most_bind _ _ fuel _ 1 (at_most_comments_run_json _ _)).
  intros payload.
  refine (at_most_bind _ _ fuel _ 0 (at_most_lift _)).
  intros st'. destruct (FetchPrComments.finished st'); [exact I | apply IH].
Qed.

End WithLoads.
End EveryRun.

(** X1.  Wrong argument counts: [fetch_issue.py] with any count but one
    argument, the pull-request scripts with more than one, end with status
    2 and the usage line on standard error, write nothing to standard
    output and start no process. *)
Theorem usage_errors_start_no_process
    (json_loads : string -> json + string) (fuel : nat)
    (W : world) (w : wstate W) (argv : list string) :
  (length argv <> 2%nat ->
   exec W (FetchIssue.main json_loads argv) w
   = (Returned (Outcome 2 "" (line FetchIssue.usage)), []))
  /\ ((2 < length argv)%nat ->
      exec W (FetchPrDiff.main json_loads argv) w
      = (Returned (Outcome 2 "" (line FetchPrDiff.usage)), [])
      /\ exec W (FetchPrComments.main json_loads fuel argv) w
         = (Returned (Outcome 2 "" (line FetchPrComments.usage)), [])).
Proof.
  split.
  - apply issue_main_usage.
  - intros H. unfold FetchPrDiff.main, FetchPrComments.main.
    destruct (Nat.ltb_spec 2 (length argv)); [|lia]. split; reflexivity.
Qed.

(** Instances: no argument for the issue script, two for the others. *)
Lemma usage_errors_start_no_process_witness :
  exec scripted (FetchIssue.main (Mock.loads []) ["fetch_issue.py"]) []
  = (Returned (Outcome 2 "" (line FetchIssue.usage)), [])
  /\ exec scripted
          (FetchPrDiff.main (Mock.loads []) ["fetch_pr_diff.py"; "7"; "8"]) []
     = (Returned (Outcome 2 "" (line FetchPrDiff.usage)), [])
  /\ exec scripted
          (FetchPrComments.main (Mock.loads []) 3
             ["fetch_pr_comments.py"; "7"; "8"]) []
     = (Returned (Outcome 2 "" (line FetchPrComments.usage)), []).
Proof.
  split.
  - apply (proj1 (usage_errors_start_no_process (Mock.loads []) 3 scripted []
                    ["fetch_issue.py"])).
    simpl. lia.
  - apply (proj2 (usage_errors_start_no_process (Mock.loads []) 3 scripted []
                    ["fetch_pr_diff.py"; "7"; "8"])).
    simpl. lia.
Defined.

(** X2.  An argument the parser refuses stops a script before it starts any
    process: [fetch_issue.py] ends with status 1 and the message of the
    parser on standard error, the pull-request scripts with the exception of
    the parser. *)
Theorem rejected_reference_starts_no_process
    (json_loads : string -> json + string) (fuel : nat)
    (W : world) (w : wstate W) (prog a : string) (e : exn) :
  (FetchIssue._parse_issue_number a = Err e ->
   exec W (FetchIssue.main json_loads [prog; a]) w
   = (Returned (Outcome 1 "" (line (exn_str e))), []))
  /\ (FetchPrDiff._parse_pr_ref a = Err e ->
      exec W (FetchPrDiff.main json_loads [prog; a]) w = (Raised e, [])
      /\ exec W (FetchPrComments.main json_loads fuel [prog; a]) w
         = (Raised e, [])).
Proof.
  split.
  - intros H. unfold FetchIssue.main. cbn [length Nat.eqb negb nth].
    rewrite H. reflexivity.
  - intros H. unfold FetchPrDiff.main, FetchPrComments.main.
    cbn [length Nat.ltb Nat.leb Nat.eqb nth].
    change (FetchPrComments._parse_pr_ref a) with (FetchPrDiff._parse_pr_ref a).
    rewrite H. split; reflexivity.
Qed.

(** Instances: the empty argument. *)
Lemma rejected_reference_starts_no_process_witness :
  exec scripted (FetchIssue.main (Mock.loads []) ["fetch_issue.py"; ""]) []
  = (Returned
       (Outcome 1 ""
          (line "Invalid issue number: ''. Expected something like 123 or #123.")),
     [])
  /\ exec scripted (FetchPrDiff.main (Mock.loads []) ["fetch_pr_diff.py"; ""]) []
     = (Raised (Exn ValueError
                  "Invalid PR reference: ''. Expected a number (e.g. 3698), #3698, or a PR URL."),
        []).
Proof.
  split.
  - apply (proj1 (rejected_reference_starts_no_process (Mock.loads []) 3
                    scripted [] "fetch_issue.py" ""
                    (Exn ValueError
                       "Invalid issue number: ''. Expected something like 123 or #123."))).
    reflexivity.
  - apply (proj2 (rejected_reference_starts_no_process (Mock.loads []) 3
                    scripted [] "fetch_pr_diff.py" ""
                    (Exn ValueError
                       "Invalid PR reference: ''. Expected a number (e.g. 3698), #3698, or a PR URL."))).
    reflexivity.
Defined.

(** X3.  In every run of each script the first process started, if any, is
    the probe of the authentication status, with nothing on its standard
    input: no query is sent before the probe. *)
Theorem probe_is_the_first_call
    (json_loads : string -> json + string) (fuel : nat)
    (W : world) (w : wstate W) (argv : list string) :
  let probe_first (tr : list call) :=
    match tr with
    | [] => True
    | c :: _ => call_cmd c = auth_probe /\ call_input c = None
    end in
  probe_first (snd (exec W (FetchIssue.main json_loads argv) w))
  /\ probe_first (snd (exec W (FetchPrDiff.main json_loads argv) w))
  /\ probe_first (snd (exec W (FetchPrComments.main json_loads fuel argv) w)).
Proof.
  intros probe_first. subst probe_first. split; [|split].
  - unfold FetchIssue.main.
    destruct (negb (length argv =? 2)%nat); [exact I|].
    destruct (FetchIssue._parse_issue_number (nth 1 argv "")); [|exact I].
    unfold FetchIssue._ensure_gh_authenticated, FetchIssue._run.
    cbn [lift bind catch exec].
    destruct (respond W w ["gh"; "auth"; "status"] None) as [p w'].
    match goal with |- context [exec W ?m w'] => destruct (exec W m w') end.
    split; reflexivity.
  - unfold FetchPrDiff.main.
    destruct (2 <? length argv)%nat; [exact I|].
    destruct (length argv =? 2)%nat;
      [destruct (FetchPrDiff._parse_pr_ref (nth 1 argv "")); [|exact I]|];
      unfold FetchPrDiff._ensure_gh_authenticated, FetchPrDiff._run;
      cbn [lift bind catch exec];
      destruct (respond W w ["gh"; "auth"; "status"] None) as [p w'];
      match goal with |- context [exec W ?m w'] => destruct (exec W m w') end;
      split; reflexivity.
  - unfold FetchPrComments.main.
    destruct (2 <? length argv)%nat; [exact I|].
    destruct (length argv =? 2)%nat;
      [destruct (FetchPrComments._parse_pr_ref (nth 1 argv "")); [|exact I]|];
      unfold FetchPrComments._ensure_gh_authenticated, FetchPrComments._run;
      cbn [lift bind catch exec];
      destruct (respond W w ["gh"; "auth"; "status"] None) as [p w'];
      match goal with |- context [exec W ?m w'] => destruct (exec W m w') end;
      split; reflexivity.
Qed.

(** X4.  No script retries or starts a process it does not need: a run of
    [fetch_issue.py] starts at most two processes, a run of
    [fetch_pr_diff.py] at most three, a run of [fetch_pr_comments.py] at
    most two and one for each iteration of its loop. *)
Theorem scripts_start_few_processes
    (json_loads : string -> json + string) (fuel : nat)
    (W : world) (w : wstate W) (argv : list string) :
  (round_trips (exec W (FetchIssue.main json_loads argv) w) <= 2)%nat
  /\ (round_trips (exec W (FetchPrDiff.main json_loads argv) w) <= 3)%nat
  /\ (round_trips (exec W (FetchPrComments.main json_loads fuel argv) w)
      <= 2 + fuel)%nat.
Proof.
  unfold round_trips. split; [|split]; apply at_most_exec.
  - unfold FetchIssue.main.
    destruct (negb (length argv =? 2)%nat); [exact I|].
    refine (at_most_catch _ _ 0 _ 2 _); [intros e; exact I|].
    refine (at_most_bind _ _ 2 _ 0 (at_most_lift _)). intros n.
    refine (at_most_bind _ _ 1 _ 1 at_most_issue_auth). intros _.
    refine (at_most_bind _ _ 0 _ 1 _); [intros r; exact I|].
    refine (at_most_bind _ _ 0 _ 1 (at_most_issue_run_json _ _)).
    intros payload. apply at_most_lift.
  - unfold FetchPrDiff.main.
    destruct (2 <? length argv)%nat; [exact I|].
    refine (at_most_bind _ _ 3 _ 0 _).
    + intros pr_ref.
      refine (at_most_catch _ _ 0 _ 3 _); [intros e; exact I|].
      refine (at_most_bind _ _ 2 _ 1 at_most_diff_auth). intros _.
      refine (at_most_bind _ _ 1 _ 1 (at_most_diff_run_json _ _)). intros pr.
      refine (at_most_bind _ _ 0 _ 1 (at_most_diff_run _)). intros d. exact I.
    + destruct (length argv =? 2)%nat; [|exact I].
      refine (at_most_bind _ _ 0 _ 0 (at_most_lift _)). intros r. exact I.
  - unfold FetchPrComments.main.
    destruct (2 <? length argv)%nat; [exact I|].
    refine (at_most_bind _ _ (2 + fuel) _ 0 _).
    + intros pr_ref.
      apply (at_most_mono _ (2 + fuel + 0)); [lia|].
      refine (at_most_catch _ _ 0 _ (2 + fuel) _); [intros e; exact I|].
      refine (at_most_bind _ _ (1 + fuel) _ 1 at_most_comments_auth). intros _.
      refine (at_most_bind _ _ fuel _ 1 _).
      * intros [[owner repo] number].
        apply (at_most_mono _ (fuel + 0)); [lia|].
        refine (at_most_bind _ _ 0 _ fuel (at_most_fetch_loop _ _ _ _ _ _)).
        intros r. exact I.
      * unfold FetchPrComments._get_pr_owner_repo_number.
        refine (at_most_bind _ _ 0 _ 1 (at_most_comments_run_json _ _ _)).
        intros pr.
        refine (at_most_bind _ _ 0 _ 0 (at_most_lift _)). intros o.
        refine (at_most_bind _ _ 0 _ 0 (at_most_lift _)). intros r.
        refine (at_most_bind _ _ 0 _ 0 (at_most_lift _)). intros n. exact I.
    + destruct (length argv =? 2)%nat; [|exact I].
      refine (at_most_bind _ _ 0 _ 0 (at_most_lift _)). intros r. exact I.
Qed.

(** X5.  However a script ends, if it ends by itself it ends in one of three
    ways: status 0 with one JSON document and a newline on standard output
    and nothing on standard error; status 1 with the text of an exception
    on standard error and nothing on standard output; status 2 with the
    usage line on standard error and nothing on standard output.  No
    partial document is ever written. *)
Theorem scripts_end_well
    (json_loads : string -> json + string) (fuel : nat)
    (W : world) (w : wstate W) (argv : list string) (o : outcome) :
  (fst (exec W (FetchIssue.main json_loads argv) w) = Returned o ->
   ends_well FetchIssue.usage o)
  /\ (fst (exec W (FetchPrDiff.main json_loads argv) w) = Returned o ->
      ends_well FetchPrDiff.usage o)
  /\ (fst (exec W (FetchPrComments.main json_loads fuel argv) w) = Returned o ->
      ends_well FetchPrComments.usage o).
Proof.
  assert (Hfail : forall u e, ends_well u (Outcome 1 "" (line (exn_str e)))).
  { intros u e. right. left. repeat split. exists e. reflexivity. }
  assert (Hdone : forall u v, ends_well u (Outcome 0 (line (PyJson.dumps v)) "")).
  { intros u v. left. repeat split. exists v. reflexivity. }
  assert (Husage : forall u, ends_well u (Outcome 2 "" (line u))).
  { intros u. right. right. repeat split. }
  split; [|split]; apply all_rets_exec.
  - unfold FetchIssue.main.
    destruct (negb (length argv =? 2)%nat); [apply Husage|].
    apply all_rets_catch; [|intros e; apply Hfail].
    apply all_rets_bind. intros n. apply all_rets_bind. intros _.
    apply all_rets_bind. intros result. apply Hdone.
  - unfold FetchPrDiff.main.
    destruct (2 <? length argv)%nat; [apply Husage|].
    apply all_rets_bind. intros pr_ref.
    apply all_rets_catch; [|intros e; apply Hfail].
    apply all_rets_bind. intros _. apply all_rets_bind. intros pr_json.
    apply all_rets_bind. intros diff. apply Hdone.
  - unfold FetchPrComments.main.
    destruct (2 <? length argv)%nat; [apply Husage|].
    apply all_rets_bind. intros pr_ref.
    apply all_rets_catch; [|intros e; apply Hfail].
    apply all_rets_bind. intros _. apply all_rets_bind.
    intros [[owner repo] number].
    apply all_rets_bind. intros result. apply Hdone.
Qed.

(** Instances: a run of each script against the paged responder. *)
Lemma scripts_end_well_witness :
  (exists o,
     fst (exec (Mock.github Mock.srv_1_1_1)
            (FetchIssue.main (Mock.loads (Mock.payloads Mock.srv_1_1_1))
               ["fetch_issue.py"; "#42"]) tt) = Returned o
     /\ ends_well FetchIssue.usage o)
  /\ (exists o,
        fst (exec (Mock.github Mock.srv_1_1_1)
               (FetchPrDiff.main (Mock.loads (Mock.payloads Mock.srv_1_1_1))
                  ["fetch_pr_diff.py"; "7"]) tt) = Returned o
        /\ ends_well FetchPrDiff.usage o)
  /\ (exists o,
        fst (exec (Mock.github Mock.srv_1_1_1)
               (FetchPrComments.main (Mock.loads (Mock.payloads Mock.srv_1_1_1))
                  3 ["fetch_pr_comments.py"; "7"]) tt) = Returned o
        /\ ends_well FetchPrComments.usage o).
Proof.
  split; [|split].
  - destruct (fst (exec (Mock.github Mock.srv_1_1_1)
                     (FetchIssue.main (Mock.loads (Mock.payloads Mock.srv_1_1_1))
                        ["fetch_issue.py"; "#42"]) tt)) as [o|e|] eqn:E;
      [| vm_compute in E; discriminate E | vm_compute in E; discriminate E].
    exists o. split; [reflexivity|].
    exact (proj1 (scripts_end_well _ 3 _ _ _ o) E).
  - destruct (fst (exec (Mock.github Mock.srv_1_1_1)
                     (FetchPrDiff.main (Mock.loads (Mock.payloads Mock.srv_1_1_1))
                        ["fetch_pr_diff.py"; "7"]) tt)) as [o|e|] eqn:E;
      [| vm_compute in E; discriminate E | vm_compute in E; discriminate E].
    exists o. split; [reflexivity|].
    exact (proj1 (proj2 (scripts_end_well _ 3 _ _ _ o)) E).
  - destruct (fst (exec (Mock.github Mock.srv_1_1_1)
                     (FetchPrComments.main
                        (Mock.loads (Mock.payloads Mock.srv_1_1_1))
                        3 ["fetch_pr_comments.py"; "7"]) tt)) as [o|e|] eqn:E;
      [| vm_compute in E; discriminate E | vm_compute in E; discriminate E].
    exists o. split; [reflexivity|].
    exact (proj2 (proj2 (scripts_end_well _ 3 _ _ _ o)) E).
Defined.

(** * Scripts that always end *)

Section Halting.

Lemma halts_bind {A B} (m : io A) (f : A -> io B) :
  halts m -> (forall a, halts (f a)) -> halts (bind m f).
Proof.
  intros Hm Hf. induction m as [a | e | cmd input k IH |];
    cbn [bind halts] in *; auto.
Qed.

Lemma halts_catch {A} (m : io A) (h : exn -> io A) :
  halts m -> (forall e, halts (h e)) -> halts (catch m h).
Proof.
  intros Hm Hh. induction m as [a | e | cmd input k IH |];
    cbn [catch halts] in *; auto.
Qed.

Lemma halts_lift {A} (r : result A) : halts (lift r).
Proof. destruct r; exact I. Qed.

Lemma halts_exec {A} (m : io A) :
  halts m ->
  forall (W : world) (w : wstate W), fst (exec W m w) <> Unfinished.
Proof.
  induction m as [a | e | cmd input k IH |]; cbn [halts exec];
    intros Hm W w; try discriminate; try contradiction.
  destruct (respond W w cmd input) as [p w'].
  specialize (IH p (Hm p) W w').
  destruct (exec W (k p) w') as [r tr]. exact IH.
Qed.

Variable json_loads : string -> json + string.

Lemma halts_issue_main argv : halts (FetchIssue.main json_loads argv).
Proof.
  unfold FetchIssue.main.
  destruct (negb (length argv =? 2)%nat); [exact I|].
  apply halts_catch; [|intros e; exact I].
  apply halts_bind; [apply halts_lift|]. intros n.
  apply halts_bind.
  { intros p. destruct p as [rc so se|e]; [destruct (negb (rc =? 0)%Z)|];
      exact I. }
  intros _. apply halts_bind; [|intros r; exact I].
  apply halts_bind; [|intros payload; apply halts_lift].
  intros p. destruct p as [rc so se|e]; [destruct (negb (rc =? 0)%Z)|];
    try exact I.
  cbn [bind]. destruct (json_loads so); exact I.
Qed.

Lemma halts_diff_main argv : halts (FetchPrDiff.main json_loads argv).
Proof.
  unfold FetchPrDiff.main.
  destruct (2 <? length argv)%nat; [exact I|].
  apply halts_bind.
  { destruct (length argv =? 2)%nat; [|exact I].
    apply halts_bind; [apply halts_lift | intros r; exact I]. }
  intros pr_ref. apply halts_catch; [|intros e; exact I].
  apply halts_bind.
  { intros p. destruct p as [rc so se|e]; [destruct (negb (rc =? 0)%Z)|];
      exact I. }
  intros _. apply halts_bind.
  { intros p. destruct p as [rc so se|e]; [destruct (negb (rc =? 0)%Z)|];
      try exact I.
    cbn [bind]. destruct (json_loads so); exact I. }
  intros pr_json. apply halts_bind; [|intros d; exact I].
  intros p. destruct p as [rc so se|e]; [destruct (negb (rc =? 0)%Z)|];
    exact I.
Qed.

End Halting.

(** X6.  [fetch_issue.py] always ends by itself, with an exit status:
    whatever the argument list and whatever the processes answer, no
    exception leaves [main]. *)
Theorem issue_main_always_exits
    (json_loads : string -> json + string)
    (W : world) (w : wstate W) (argv : list string) :
  exists o : outcome,
    fst (exec W (FetchIssue.main json_loads argv) w) = Returned o.
Proof.
  pose proof (halts_exec _ (halts_issue_main json_loads argv) W w) as Hh.
  destruct (fst (exec W (FetchIssue.main json_loads argv) w))
    as [o | e |] eqn:E.
  - exists o. reflexivity.
  - exfalso. exact (issue_main_catches_every_exception json_loads W w argv e E).
  - exfalso. apply Hh. reflexivity.
Qed.

(** X7.  [fetch_pr_diff.py] ends by itself with an exit status in every run
    but one kind: with one argument that the parser refuses, the exception
    of the parser leaves [main]. *)
Theorem diff_main_exits_or_raises_parser_error
    (json_loads : string -> json + string)
    (W : world) (w : wstate W) (argv : list string) :
  (exists o : outcome,
     fst (exec W (FetchPrDiff.main json_loads argv) w) = Returned o)
  \/ (exists e : exn,
        fst (exec W (FetchPrDiff.main json_loads argv) w) = Raised e
        /\ length argv = 2%nat
        /\ FetchPrDiff._parse_pr_ref (nth 1 argv "") = Err e).
Proof.
  pose proof (halts_exec _ (halts_diff_main json_loads argv) W w) as Hh.
  destruct (fst (exec W (FetchPrDiff.main json_loads argv) w))
    as [o | e |] eqn:E.
  - left. exists o. reflexivity.
  - right. exists e. split; [reflexivity|].
    exact (pr_diff_main_raises_only_from_parser json_loads W w argv e E).
  - exfalso. apply Hh. reflexivity.
Qed.

(** X8.  In a run of [fetch_pr_comments.py], an exception leaves [main]
    only when there is one argument and the parser refuses it. *)
Theorem comments_main_raises_parser_error_only
    (json_loads : string -> json + string) (fuel : nat)
    (W : world) (w : wstate W) (argv : list string) :
  match fst (exec W (FetchPrComments.main json_loads fuel argv) w) with
  | Raised e =>
      length argv = 2%nat
      /\ FetchPrComments._parse_pr_ref (nth 1 argv "") = Err e
  | _ => True
  end.
Proof.
  destruct (fst (exec W (FetchPrComments.main json_loads fuel argv) w))
    as [o | e |] eqn:E; try exact I.
  exact (pr_comments_main_raises_only_from_parser json_loads fuel W w argv e E).
Qed.

(** * The pipelines, call by call *)

Section Pipelines.

Variable json_loads : string -> json + string.

(** What the parser returns is never empty, so [if pr_ref:] lets it
    through to the command line. *)
Lemma parsed_pr_ref_is_passed_on a r :
  FetchPrDiff._parse_pr_ref a = Ok r ->
  FetchPrDiff.ref_args (Some r) = [r].
Proof.
  intros H.
  assert (Hne : r <> "").
  { unfold FetchPrDiff._parse_pr_ref in H.
    destruct (Py.fullmatch_hash_digits (Py.strip a)) eqn:Eh.
    - apply fullmatch_hash_digits_inv in Eh. destruct Eh as (t & Es & Ht).
      rewrite Es in H.
      change (Py.lstrip_chars ["#"%char] (String "#" t))
        with (Py.lstrip_chars ["#"%char] t) in H.
      rewrite (lstrip_hash_digits _ (fullmatch_digits_all _ Ht)) in H.
      injection H as <-. intros ->. discriminate Ht.
    - destruct (Py.fullmatch_digits (Py.strip a)) eqn:Ed.
      + injection H as <-. intros E. rewrite E in Ed. discriminate Ed.
      + destruct (Py.search_pull_digits (Py.strip a)) eqn:Es;
          [|discriminate H].
        injection H as <-. intros E. rewrite E in Es. discriminate Es. }
  unfold FetchPrDiff.ref_args. destruct r; [congruence | reflexivity].
Qed.

(** A handler and a last step that only build the outcome add no call and
    pass every end of the computation on. *)
Lemma exec_catch_bind_ret {A B} (m : io A) (f : A -> B) (h : exn -> B) :
  forall (W : world) (w : wstate W),
    exec W (catch (bind m (fun a => Ret (f a))) (fun e => Ret (h e))) w
    = (match fst (exec W m w) with
       | Returned a => Returned (f a)
       | Raised e => Returned (h e)
       | Unfinished => Unfinished
       end, snd (exec W m w)).
Proof.
  induction m as [a | e | cmd input k IH |]; intros W w; try reflexivity.
  cbn [bind catch exec].
  destruct (respond W w cmd input) as [p w'].
  rewrite IH. destruct (exec W (k p) w') as [r tr]. reflexivity.
Qed.

End Pipelines.

(** X9.  The issue pipeline when all goes well: with an argument the parser
    reads as [n], a probe that succeeds and a client that answers with a
    payload the script can reshape, [fetch_issue.py] starts exactly two
    processes, the probe and [gh issue view] with [n] in canonical decimal
    form and the eleven fields, then prints the reshaped payload and ends
    with status 0. *)
Theorem issue_main_prints_the_reshaped_issue
    (json_loads : string -> json + string)
    (prog a o1 e1 view e2 : string) (n : Z) (payload res : json) :
  FetchIssue._parse_issue_number a = Ok n ->
  json_loads view = inl payload ->
  FetchIssue.normalize payload = Ok res ->
  exec scripted (FetchIssue.main json_loads [prog; a])
       [Completed 0 o1 e1; Completed 0 view e2]
  = (Returned (Outcome 0 (line (PyJson.dumps res)) ""),
     [Call ["gh"; "auth"; "status"] None (Completed 0 o1 e1);
      Call ["gh"; "issue"; "view"; Py.str_int n; "--json";
            "number,title,url,state,body,author,createdAt,updatedAt,assignees,labels,comments"]
           None (Completed 0 view e2)]).
Proof.
  intros Hp Hl Hn. unfold FetchIssue.main. cbn [length Nat.eqb negb nth].
  rewrite Hp.
  unfold FetchIssue._ensure_gh_authenticated, FetchIssue.fetch_issue,
    FetchIssue._run_json, FetchIssue._run.
  cbn [lift bind catch exec scripted respond negb Z.eqb].
  rewrite Hl. cbn [bind catch]. rewrite Hn. reflexivity.
Qed.

(** An instance: the issue 42 of the sample payload, asked for as " #0042". *)
Lemma issue_main_prints_the_reshaped_issue_witness :
  exists res,
    FetchIssue.normalize (JObj Mock.full_issue) = Ok res
    /\ exec scripted
            (FetchIssue.main (Mock.loads [JObj Mock.full_issue])
               ["fetch_issue.py"; " #0042"])
            [Completed 0 "" ""; Completed 0 (PyJson.dumps (JObj Mock.full_issue)) ""]
       = (Returned (Outcome 0 (line (PyJson.dumps res)) ""),
          [Call ["gh"; "auth"; "status"] None (Completed 0 "" "");
           Call ["gh"; "issue"; "view"; Py.str_int 42; "--json";
                 "number,title,url,state,body,author,createdAt,updatedAt,assignees,labels,comments"]
                None (Completed 0 (PyJson.dumps (JObj Mock.full_issue)) "")]).
Proof.
  destruct (FetchIssue.normalize (JObj Mock.full_issue)) as [res|e] eqn:En;
    [|vm_compute in En; discriminate En].
  exists res. split; [reflexivity|].
  apply (issue_main_prints_the_reshaped_issue
           (Mock.loads [JObj Mock.full_issue]) "fetch_issue.py" " #0042"
           "" "" (PyJson.dumps (JObj Mock.full_issue)) "" 42
           (JObj Mock.full_issue) res).
  - reflexivity.
  - vm_compute. reflexivity.
  - exact En.
Defined.

(** X10.  What the issue pipeline reports when the client fails after a
    probe that succeeded.  A non-zero exit status: status 1, and on standard
    error the command line joined by spaces, then the standard error of the
    client stripped of surrounding whitespace.  An output that does not
    parse: status 1, and on standard error the text of the parse error, then
    the raw output.  A payload that cannot be reshaped: status 1 and the
    text of the exception.  Nothing is printed on standard output in any of
    these cases. *)
Theorem issue_main_reports_client_failures
    (json_loads : string -> json + string)
    (prog a o1 e1 view e2 : string) (n : Z) :
  FetchIssue._parse_issue_number a = Ok n ->
  (forall rc : Z, rc <> 0%Z ->
     fst (exec scripted (FetchIssue.main json_loads [prog; a])
            [Completed 0 o1 e1; Completed rc view e2])
     = Returned
         (Outcome 1 ""
            (line ("Command failed: "
                   ++ Py.join " "
                        ["gh"; "issue"; "view"; Py.str_int n; "--json";
                         "number,title,url,state,body,author,createdAt,updatedAt,assignees,labels,comments"]
                   ++ Py.chr Py.newline ++ Py.strip e2))))
  /\ (forall msg : string, json_loads view = inr msg ->
        fst (exec scripted (FetchIssue.main json_loads [prog; a])
               [Completed 0 o1 e1; Completed 0 view e2])
        = Returned
            (Outcome 1 ""
               (line ("Failed to parse JSON output: " ++ msg
                      ++ Py.chr Py.newline ++ "Raw:" ++ Py.chr Py.newline
                      ++ view))))
  /\ (forall (payload : json) (e : exn),
        json_loads view = inl payload ->
        FetchIssue.normalize payload = Err e ->
        fst (exec scripted (FetchIssue.main json_loads [prog; a])
               [Completed 0 o1 e1; Completed 0 view e2])
        = Returned (Outcome 1 "" (line (exn_str e)))).
Proof.
  intros Hp. split; [|split].
  - intros rc Hrc. unfold FetchIssue.main. cbn [length Nat.eqb negb nth].
    rewrite Hp.
    unfold FetchIssue._ensure_gh_authenticated, FetchIssue.fetch_issue,
      FetchIssue._run_json, FetchIssue._run.
    cbn [lift bind catch exec scripted respond negb Z.eqb].
    destruct (Z.eqb_spec rc 0) as [E|_]; [contradiction|].
    reflexivity.
  - intros msg Hl. unfold FetchIssue.main. cbn [length Nat.eqb negb nth].
    rewrite Hp.
    unfold FetchIssue._ensure_gh_authenticated, FetchIssue.fetch_issue,
      FetchIssue._run_json, FetchIssue._run.
    cbn [lift bind catch exec scripted respond negb Z.eqb].
    rewrite Hl. reflexivity.
  - intros payload e Hl Hn. unfold FetchIssue.main.
    cbn [length Nat.eqb negb nth]. rewrite Hp.
    unfold FetchIssue._ensure_gh_authenticated, FetchIssue.fetch_issue,
      FetchIssue._run_json, FetchIssue._run.
    cbn [lift bind catch exec scripted respond negb Z.eqb].
    rewrite Hl. cbn [bind catch]. rewrite Hn. reflexivity.
Qed.

(** An instance: the client exits with status 1 because the issue does not
    exist. *)
Lemma issue_main_reports_client_failures_witness :
  fst (exec scripted
         (FetchIssue.main (Mock.loads []) ["fetch_issue.py"; "42"])
         [Completed 0 "" ""; Completed 1 "" " no such issue
"])
  = Returned
      (Outcome 1 ""
         (line ("Command failed: "
                ++ Py.join " "
                     ["gh"; "issue"; "view"; Py.str_int 42; "--json";
                      "number,title,url,state,body,author,createdAt,updatedAt,assignees,labels,comments"]
                ++ Py.chr Py.newline ++ Py.strip " no such issue
"))).
Proof.
  apply (proj1 (issue_main_reports_client_failures (Mock.loads [])
                  "fetch_issue.py" "42" "" "" "" " no such issue
" 42 eq_refl) 1%Z).
  discriminate.
Defined.

(** X11.  The diff pipeline when all goes well.  With a reference the parser
    accepts, the script starts three processes in this order: the probe,
    [gh pr view] with the parsed reference and the thirteen fields, [gh pr
    diff] with the same reference; with no argument the two commands carry
    no reference.  The document printed holds the metadata as parsed and
    the diff text as received, and the status is 0. *)
Theorem diff_main_asks_for_metadata_then_diff
    (json_loads : string -> json + string)
    (prog o1 e1 view e2 diff e3 : string) (pr_json : json) :
  json_loads view = inl pr_json ->
  let printed :=
    Returned (Outcome 0
                (line (PyJson.dumps
                         (JObj [("pr", pr_json); ("diff", JStr diff)])))
                "") in
  (forall a r : string,
     FetchPrDiff._parse_pr_ref a = Ok r ->
     exec scripted (FetchPrDiff.main json_loads [prog; a])
          [Completed 0 o1 e1; Completed 0 view e2; Completed 0 diff e3]
     = (printed,
        [Call ["gh"; "auth"; "status"] None (Completed 0 o1 e1);
         Call ["gh"; "pr"; "view"; r; "--json";
               "number,title,url,headRefName,baseRefName,state,author,createdAt,updatedAt,additions,deletions,changedFiles,files"]
              None (Completed 0 view e2);
         Call ["gh"; "pr"; "diff"; r] None (Completed 0 diff e3)]))
  /\ exec scripted (FetchPrDiff.main json_loads [prog])
          [Completed 0 o1 e1; Completed 0 view e2; Completed 0 diff e3]
     = (printed,
        [Call ["gh"; "auth"; "status"] None (Completed 0 o1 e1);
         Call ["gh"; "pr"; "view"; "--json";
               "number,title,url,headRefName,baseRefName,state,author,createdAt,updatedAt,additions,deletions,changedFiles,files"]
              None (Completed 0 view e2);
         Call ["gh"; "pr"; "diff"] None (Completed 0 diff e3)]).
Proof.
  intros Hl printed. subst printed. split.
  - intros a r Hp. unfold FetchPrDiff.main.
    cbn [length Nat.ltb Nat.leb Nat.eqb nth]. rewrite Hp. cbn [lift bind].
    unfold FetchPrDiff._ensure_gh_authenticated, FetchPrDiff._get_pr_view_json,
      FetchPrDiff._get_pr_diff, FetchPrDiff._run_json, FetchPrDiff._run.
    rewrite (parsed_pr_ref_is_passed_on _ _ Hp).
    cbn [lift bind catch exec scripted respond negb Z.eqb app].
    rewrite Hl. reflexivity.
  - unfold FetchPrDiff.main.
    cbn [length Nat.ltb Nat.leb Nat.eqb nth].
    unfold FetchPrDiff._ensure_gh_authenticated, FetchPrDiff._get_pr_view_json,
      FetchPrDiff._get_pr_diff, FetchPrDiff._run_json, FetchPrDiff._run.
    cbn [lift bind catch exec scripted respond negb Z.eqb app
         FetchPrDiff.ref_args].
    rewrite Hl. reflexivity.
Qed.

(** An instance: the pull request given by its URL. *)
Lemma diff_main_asks_for_metadata_then_diff_witness :
  exec scripted
       (FetchPrDiff.main (Mock.loads [Mock.pr_view])
          ["fetch_pr_diff.py"; " https://github.com/acme/widget/pull/7 "])
       [Completed 0 "" ""; Completed 0 (PyJson.dumps Mock.pr_view) "";
        Completed 0 Mock.diff_text ""]
  = (Returned (Outcome 0
                 (line (PyJson.dumps
                          (JObj [("pr", Mock.pr_view);
                                 ("diff", JStr Mock.diff_text)])))
                 ""),
     [Call ["gh"; "auth"; "status"] None (Completed 0 "" "");
      Call ["gh"; "pr"; "view"; "https://github.com/acme/widget/pull/7";
            "--json";
            "number,title,url,headRefName,baseRefName,state,author,createdAt,updatedAt,additions,deletions,changedFiles,files"]
           None (Completed 0 (PyJson.dumps Mock.pr_view) "");
      Call ["gh"; "pr"; "diff"; "https://github.com/acme/widget/pull/7"]
           None (Completed 0 Mock.diff_text "")]).
Proof.
  assert (Hl : Mock.loads [Mock.pr_view] (PyJson.dumps Mock.pr_view)
               = inl Mock.pr_view) by (vm_compute; reflexivity).
  apply (proj1 (diff_main_asks_for_metadata_then_diff
                  (Mock.loads [Mock.pr_view]) "fetch_pr_diff.py" "" ""
                  (PyJson.dumps Mock.pr_view) "" Mock.diff_text ""
                  Mock.pr_view Hl)
               " https://github.com/acme/widget/pull/7 "
               "https://github.com/acme/widget/pull/7").
  reflexivity.
Defined.

(** X12.  When [gh pr diff] exits with a status other than 0 after the
    probe and [gh pr view] succeeded, [fetch_pr_diff.py] ends with status 1
    and the failed command on standard error; the metadata already fetched
    is not printed. *)
Theorem diff_failure_discards_the_metadata
    (json_loads : string -> json + string)
    (prog a r o1 e1 view e2 diff e3 : string) (pr_json : json) (rc : Z) :
  FetchPrDiff._parse_pr_ref a = Ok r ->
  json_loads view = inl pr_json ->
  rc <> 0%Z ->
  fst (exec scripted (FetchPrDiff.main json_loads [prog; a])
         [Completed 0 o1 e1; Completed 0 view e2; Completed rc diff e3])
  = Returned
      (Outcome 1 ""
         (line ("Command failed: " ++ Py.join " " ["gh"; "pr"; "diff"; r]
                ++ Py.chr Py.newline ++ Py.strip e3))).
Proof.
  intros Hp Hl Hrc. unfold FetchPrDiff.main.
  cbn [length Nat.ltb Nat.leb Nat.eqb nth]. rewrite Hp. cbn [lift bind].
  unfold FetchPrDiff._ensure_gh_authenticated, FetchPrDiff._get_pr_view_json,
    FetchPrDiff._get_pr_diff, FetchPrDiff._run_json, FetchPrDiff._run.
  rewrite (parsed_pr_ref_is_passed_on _ _ Hp).
  cbn [lift bind catch exec scripted respond negb Z.eqb app].
  rewrite Hl. cbn [bind catch exec scripted respond].
  destruct (Z.eqb_spec rc 0) as [E|_]; [contradiction|]. reflexivity.
Qed.

(** An instance: the diff is too large for the client. *)
Lemma diff_failure_discards_the_metadata_witness :
  fst (exec scripted
         (FetchPrDiff.main (Mock.loads [Mock.pr_view]) ["fetch_pr_diff.py"; "#7"])
         [Completed 0 "" ""; Completed 0 (PyJson.dumps Mock.pr_view) "";
          Completed 1 "" "diff too large"])
  = Returned
      (Outcome 1 ""
         (line ("Command failed: " ++ Py.join " " ["gh"; "pr"; "diff"; "7"]
                ++ Py.chr Py.newline ++ Py.strip "diff too large"))).
Proof.
  apply (diff_failure_discards_the_metadata
           (Mock.loads [Mock.pr_view]) "fetch_pr_diff.py" "#7" "7" "" ""
           (PyJson.dumps Mock.pr_view) "" "" "diff too large" Mock.pr_view 1).
  - reflexivity.
  - vm_compute. reflexivity.
  - discriminate.
Defined.

(** X13.  The conversation pipeline resolves the pull request before it
    queries: after the probe, [gh pr view] is asked for the number and the
    head repository, and [fetch_all] is run on the login of the owner of
    the head repository, the name of the head repository and the number as
    an integer.  The run makes these two calls and then the calls of
    [fetch_all]; it prints what [fetch_all] returns with status 0, or the
    text of the exception [fetch_all] raises with status 1. *)
Theorem comments_main_fetches_the_resolved_pull_request
    (json_loads : string -> json + string) (fuel : nat)
    (prog o1 e1 view e2 : string) (rest : list proc_result)
    (pr owner repo : json) (n : Z) :
  json_loads view = inl pr ->
  FetchPrComments.index2 pr "headRepositoryOwner" "login" = Ok owner ->
  FetchPrComments.index2 pr "headRepository" "name" = Ok repo ->
  rbind (PyJson.index pr "number") PyJson.int_of = Ok n ->
  let fetched :=
    exec scripted (FetchPrComments.fetch_all json_loads fuel owner repo n)
         rest in
  let ending :=
    match fst fetched with
    | Returned res => Returned (Outcome 0 (line (PyJson.dumps res)) "")
    | Raised e => Returned (Outcome 1 "" (line (exn_str e)))
    | Unfinished => Unfinished
    end in
  (forall a r : string,
     FetchPrComments._parse_pr_ref a = Ok r ->
     exec scripted (FetchPrComments.main json_loads fuel [prog; a])
          (Completed 0 o1 e1 :: Completed 0 view e2 :: rest)
     = (ending,
        Call ["gh"; "auth"; "status"] None (Completed 0 o1 e1)
        :: Call ["gh"; "pr"; "view"; r; "--json";
                 "number,headRepositoryOwner,headRepository"]
                None (Completed 0 view e2)
        :: snd fetched))
  /\ exec scripted (FetchPrComments.main json_loads fuel [prog])
          (Completed 0 o1 e1 :: Completed 0 view e2 :: rest)
     = (ending,
        Call ["gh"; "auth"; "status"] None (Completed 0 o1 e1)
        :: Call ["gh"; "pr"; "view"; "--json";
                 "number,headRepositoryOwner,headRepository"]
                None (Completed 0 view e2)
        :: snd fetched).
Proof.
  intros Hl Ho Hr Hn fetched ending. subst fetched ending. split.
  - intros a r Hp. unfold FetchPrComments.main.
    cbn [length Nat.ltb Nat.leb Nat.eqb nth]. rewrite Hp. cbn [lift bind].
    unfold FetchPrComments._ensure_gh_authenticated,
      FetchPrComments._get_pr_owner_repo_number, FetchPrComments._run_json,
      FetchPrComments._run.
    change (FetchPrComments.ref_args (Some r))
      with (FetchPrDiff.ref_args (Some r)).
    rewrite (parsed_pr_ref_is_passed_on _ _ Hp).
    cbn [lift bind catch exec scripted respond negb Z.eqb app].
    rewrite Hl. cbn [lift bind catch]. rewrite Ho. cbn [lift bind catch].
    rewrite Hr. cbn [lift bind catch]. rewrite Hn. cbn [lift bind catch].
    rewrite (exec_catch_bind_ret
               (FetchPrComments.fetch_all json_loads fuel owner repo n)
               (fun res => Outcome 0 (line (PyJson.dumps res)) "")
               (fun e => Outcome 1 "" (line (exn_str e)))).
    reflexivity.
  - unfold FetchPrComments.main.
    cbn [length Nat.ltb Nat.leb Nat.eqb nth]. cbn [lift bind].
    unfold FetchPrComments._ensure_gh_authenticated,
      FetchPrComments._get_pr_owner_repo_number, FetchPrComments._run_json,
      FetchPrComments._run.
    cbn [lift bind catch exec scripted respond negb Z.eqb app
         FetchPrComments.ref_args].
    rewrite Hl. cbn [lift bind catch]. rewrite Ho. cbn [lift bind catch].
    rewrite Hr. cbn [lift bind catch]. rewrite Hn. cbn [lift bind catch].
    rewrite (exec_catch_bind_ret
               (FetchPrComments.fetch_all json_loads fuel owner repo n)
               (fun res => Outcome 0 (line (PyJson.dumps res)) "")
               (fun e => Outcome 1 "" (line (exn_str e)))).
    reflexivity.
Qed.

(** An instance: the pull request 7 of acme/widget, found from the current
    branch. *)
Lemma comments_main_fetches_the_resolved_pull_request_witness :
  exec scripted
       (FetchPrComments.main (Mock.loads (Mock.payloads Mock.srv_1_1_1)) 3
          ["fetch_pr_comments.py"])
       [Completed 0 "" ""; Completed 0 (PyJson.dumps Mock.pr_view) "";
        Completed 0 (PyJson.dumps (Mock.payload_at Mock.srv_1_1_1 0 0 0)) ""]
  = (match
       fst (exec scripted
              (FetchPrComments.fetch_all
                 (Mock.loads (Mock.payloads Mock.srv_1_1_1)) 3
                 (JStr "acme") (JStr "widget") 7)
              [Completed 0
                 (PyJson.dumps (Mock.payload_at Mock.srv_1_1_1 0 0 0)) ""])
     with
     | Returned res => Returned (Outcome 0 (line (PyJson.dumps res)) "")
     | Raised e => Returned (Outcome 1 "" (line (exn_str e)))
     | Unfinished => Unfinished
     end,
     Call ["gh"; "auth"; "status"] None (Completed 0 "" "")
     :: Call ["gh"; "pr"; "view"; "--json";
              "number,headRepositoryOwner,headRepository"]
             None (Completed 0 (PyJson.dumps Mock.pr_view) "")
     :: snd (exec scripted
               (FetchPrComments.fetch_all
                  (Mock.loads (Mock.payloads Mock.srv_1_1_1)) 3
                  (JStr "acme") (JStr "widget") 7)
               [Completed 0
                  (PyJson.dumps (Mock.payload_at Mock.srv_1_1_1 0 0 0)) ""])).
Proof.
  apply (proj2 (comments_main_fetches_the_resolved_pull_request
                  (Mock.loads (Mock.payloads Mock.srv_1_1_1)) 3
                  "fetch_pr_comments.py" "" "" (PyJson.dumps Mock.pr_view) ""
                  [Completed 0
                     (PyJson.dumps (Mock.payload_at Mock.srv_1_1_1 0 0 0)) ""]
                  Mock.pr_view (JStr "acme") (JStr "widget") 7
                  ltac:(vm_compute; reflexivity) eq_refl eq_refl eq_refl)).
Defined.

(** X14.  A pull request whose head repository cannot be read ends the run
    before any query: when the answer of [gh pr view] has no
    [headRepositoryOwner], or holds null for [headRepository], the script
    ends with status 1 after two processes, and standard error holds the
    quoted name of the missing key, or the interpreter's complaint about
    subscripting [None]. *)
Theorem unreadable_head_repository_ends_the_run
    (json_loads : string -> json + string) (fuel : nat)
    (prog o1 e1 view e2 : string) (rest : list proc_result)
    (kvs : list (string * json)) :
  json_loads view = inl (JObj kvs) ->
  let calls :=
    [Call ["gh"; "auth"; "status"] None (Completed 0 o1 e1);
     Call ["gh"; "pr"; "view"; "--json";
           "number,headRepositoryOwner,headRepository"]
          None (Completed 0 view e2)] in
  (PyJson.lookup "headRepositoryOwner" kvs = None ->
   exec scripted (FetchPrComments.main json_loads fuel [prog])
        (Completed 0 o1 e1 :: Completed 0 view e2 :: rest)
   = (Returned (Outcome 1 "" (line "'headRepositoryOwner'")), calls))
  /\ (forall owner : json,
        FetchPrComments.index2 (JObj kvs) "headRepositoryOwner" "login"
        = Ok owner ->
        PyJson.lookup "headRepository" kvs = Some JNull ->
        exec scripted (FetchPrComments.main json_loads fuel [prog])
             (Completed 0 o1 e1 :: Completed 0 view e2 :: rest)
        = (Returned (Outcome 1 ""
                       (line "'NoneType' object is not subscriptable")),
           calls)).
Proof.
  intros Hl calls. subst calls. split.
  - intros Hk. unfold FetchPrComments.main.
    cbn [length Nat.ltb Nat.leb Nat.eqb nth]. cbn [lift bind].
    unfold FetchPrComments._ensure_gh_authenticated,
      FetchPrComments._get_pr_owner_repo_number, FetchPrComments._run_json,
      FetchPrComments._run.
    cbn [lift bind catch exec scripted respond negb Z.eqb app
         FetchPrComments.ref_args].
    rewrite Hl. cbn [lift bind catch].
    unfold FetchPrComments.index2. cbn [PyJson.index]. rewrite Hk.
    reflexivity.
  - intros owner Ho Hk. unfold FetchPrComments.main.
    cbn [length Nat.ltb Nat.leb Nat.eqb nth]. cbn [lift bind].
    unfold FetchPrComments._ensure_gh_authenticated,
      FetchPrComments._get_pr_owner_repo_number, FetchPrComments._run_json,
      FetchPrComments._run.
    cbn [lift bind catch exec scripted respond negb Z.eqb app
         FetchPrComments.ref_args].
    rewrite Hl. cbn [lift bind catch]. rewrite Ho. cbn [lift bind catch].
    unfold FetchPrComments.index2. cbn [PyJson.index]. rewrite Hk.
    reflexivity.
Qed.

(** An instance: an answer that holds the number alone. *)
Lemma unreadable_head_repository_ends_the_run_witness :
  exec scripted
       (FetchPrComments.main (Mock.loads [JObj [("number", JNum 7)]]) 3
          ["fetch_pr_comments.py"])
       [Completed 0 "" "";
        Completed 0 (PyJson.dumps (JObj [("number", JNum 7)])) ""]
  = (Returned (Outcome 1 "" (line "'headRepositoryOwner'")),
     [Call ["gh"; "auth"; "status"] None (Completed 0 "" "");
      Call ["gh"; "pr"; "view"; "--json";
            "number,headRepositoryOwner,headRepository"]
           None (Completed 0 (PyJson.dumps (JObj [("number", JNum 7)])) "")]).
Proof.
  apply (proj1 (unreadable_head_repository_ends_the_run
                  (Mock.loads [JObj [("number", JNum 7)]]) 3
                  "fetch_pr_comments.py" "" ""
                  (PyJson.dumps (JObj [("number", JNum 7)])) "" []
                  [("number", JNum 7)] ltac:(vm_compute; reflexivity))).
  reflexivity.
Defined.

(** * The requests of the pagination loop *)

Section Requests.

Variable json_loads : string -> json + string.
Variable W : world.
Variables (owner repo : json) (number : Z).

Lemma graphql_cmd_shape (cc rc tc : json) :
  firstn 11 (FetchPrComments.graphql_cmd owner repo number cc rc tc)
  = graphql_head owner repo number
  /\ (length (FetchPrComments.graphql_cmd owner repo number cc rc tc) <= 17)%nat.
Proof.
  split; [reflexivity|].
  unfold FetchPrComments.graphql_cmd, FetchPrComments.cursor_args.
  rewrite !length_app.
  destruct (PyJson.truthy cc), (PyJson.truthy rc), (PyJson.truthy tc);
    cbn [length]; lia.
Qed.

Lemma fetch_loop_requests (fuel : nat) :
  forall (st : FetchPrComments.loop_state) (w : wstate W),
    Forall (fun c =>
              call_input c = Some FetchPrComments.QUERY
              /\ firstn 11 (call_cmd c) = graphql_head owner repo number
              /\ (length (call_cmd c) <= 17)%nat)
           (snd (exec W (FetchPrComments.fetch_loop json_loads fuel owner repo
                           number st) w)).
Proof.
  induction fuel as [|fuel IH]; intros st w; [constructor|].
  rewrite fetch_loop_step.
  destruct (respond W w _ (Some FetchPrComments.QUERY)) as [p w'].
  assert (Hc : forall p',
             call_input (Call (FetchPrComments.graphql_cmd owner repo number
                                 (FetchPrComments.comments_cursor st)
                                 (FetchPrComments.reviews_cursor st)
                                 (FetchPrComments.threads_cursor st))
                              (Some FetchPrComments.QUERY) p')
             = Some FetchPrComments.QUERY
             /\ firstn 11 (call_cmd
                             (Call (FetchPrComments.graphql_cmd owner repo number
                                      (FetchPrComments.comments_cursor st)
                                      (FetchPrComments.reviews_cursor st)
                                      (FetchPrComments.threads_cursor st))
                                   (Some FetchPrComments.QUERY) p'))
                = graphql_head owner repo number
             /\ (length (call_cmd
                           (Call (FetchPrComments.graphql_cmd owner repo number
                                    (FetchPrComments.comments_cursor st)
                                    (FetchPrComments.reviews_cursor st)
                                    (FetchPrComments.threads_cursor st))
                                 (Some FetchPrComments.QUERY) p')) <= 17)%nat).
  { intros p'. split; [reflexivity|]. apply graphql_cmd_shape. }
  destruct p as [rc so se | e];
    [|cbn [snd]; constructor; [apply Hc | constructor]].
  destruct (negb (rc =? 0)%Z);
    [cbn [snd]; constructor; [apply Hc | constructor]|].
  destruct (json_loads so) as [payload | msg];
    [|cbn [snd]; constructor; [apply Hc | constructor]].
  destruct (FetchPrComments.absorb owner repo st payload) as [st'|e];
    [|cbn [snd]; constructor; [apply Hc | constructor]].
  destruct (FetchPrComments.finished st');
    [cbn [snd]; constructor; [apply Hc | constructor]|].
  specialize (IH st' w').
  destruct (exec W (FetchPrComments.fetch_loop json_loads fuel owner repo
                      number st') w') as [r tr].
  cbn [snd] in *. constructor; [apply Hc | exact IH].
Qed.


End Requests.

(** X15.  Every request [fetch_all] sends, in whatever run, sends the query
    document on standard input and names the same pull request: its command
    line starts with the same eleven words, which carry the owner, the
    repository and the number [fetch_all] was called with, and holds at
    most three cursor fields after them. *)
Theorem every_request_names_the_same_pull_request
    (json_loads : string -> json + string) (W : world) (w : wstate W)
    (fuel : nat) (owner repo : json) (number : Z) :
  Forall (fun c =>
            call_input c = Some FetchPrComments.QUERY
            /\ firstn 11 (call_cmd c) = graphql_head owner repo number
            /\ (length (call_cmd c) <= 17)%nat)
         (snd (exec W (FetchPrComments.fetch_all json_loads fuel owner repo
                         number) w)).
Proof. apply fetch_loop_requests. Qed.



(** X17.  A response that holds a non-empty [errors] entry aborts
    [fetch_all] at whatever iteration it arrives, even when it also holds
    data: the loop raises a [RuntimeError] that quotes the entry, sends no
    further request, and what earlier iterations accumulated is dropped. *)
Theorem graphql_errors_abort_the_fetch
    (json_loads : string -> json + string) (W : world) (w w' : wstate W)
    (fuel : nat) (owner repo : json) (number : Z)
    (st : FetchPrComments.loop_state) (stdout stderr : string)
    (kvs : list (string * json)) (errors : json) :
  let request :=
    FetchPrComments.graphql_cmd owner repo number
      (FetchPrComments.comments_cursor st) (FetchPrComments.reviews_cursor st)
      (FetchPrComments.threads_cursor st) in
  respond W w request (Some FetchPrComments.QUERY)
  = (Completed 0 stdout stderr, w') ->
  json_loads stdout = inl (JObj kvs) ->
  PyJson.lookup "errors" kvs = Some errors ->
  PyJson.truthy errors = true ->
  exec W (FetchPrComments.fetch_loop json_loads (S fuel) owner repo number st) w
  = (Raised (Exn RuntimeError
               ("GitHub GraphQL errors:" ++ Py.chr Py.newline
                ++ PyJson.dumps errors)),
     [Call request (Some FetchPrComments.QUERY) (Completed 0 stdout stderr)]).
Proof.
  intros request Hr Hl Hk Ht. subst request.
  rewrite fetch_loop_step, Hr. cbn [negb Z.eqb]. rewrite Hl.
  unfold FetchPrComments.absorb, FetchPrComments.check_errors.
  cbn [PyJson.contains_key PyJson.index]. rewrite Hk. cbn [rbind].
  rewrite Ht. reflexivity.
Qed.

(** An instance: the first response reports that the pull request could not
    be resolved. *)
Lemma graphql_errors_abort_the_fetch_witness :
  exec scripted
       (FetchPrComments.fetch_loop
          (Mock.loads [JObj [("data", JNull);
                             ("errors", JArr [JObj [("type", JStr "NOT_FOUND")]])]])
          (S 4) (JStr "acme") (JStr "widget") 7 FetchPrComments.initial_state)
       [Completed 0
          (PyJson.dumps
             (JObj [("data", JNull);
                    ("errors", JArr [JObj [("type", JStr "NOT_FOUND")]])])) ""]
  = (Raised (Exn RuntimeError
               ("GitHub GraphQL errors:" ++ Py.chr Py.newline
                ++ PyJson.dumps (JArr [JObj [("type", JStr "NOT_FOUND")]]))),
     [Call (FetchPrComments.graphql_cmd (JStr "acme") (JStr "widget") 7
              JNull JNull JNull)
           (Some FetchPrComments.QUERY)
           (Completed 0
              (PyJson.dumps
                 (JObj [("data", JNull);
                        ("errors", JArr [JObj [("type", JStr "NOT_FOUND")]])]))
              "")]).
Proof.
  apply (graphql_errors_abort_the_fetch
           (Mock.loads [JObj [("data", JNull);
                              ("errors", JArr [JObj [("type", JStr "NOT_FOUND")]])]])
           scripted
           [Completed 0
              (PyJson.dumps
                 (JObj [("data", JNull);
                        ("errors", JArr [JObj [("type", JStr "NOT_FOUND")]])])) ""]
           [] 4 (JStr "acme") (JStr "widget") 7 FetchPrComments.initial_state
           (PyJson.dumps
              (JObj [("data", JNull);
                     ("errors", JArr [JObj [("type", JStr "NOT_FOUND")]])]))
           ""
           [("data", JNull);
            ("errors", JArr [JObj [("type", JStr "NOT_FOUND")]])]
           (JArr [JObj [("type", JStr "NOT_FOUND")]])).
  - reflexivity.
  - vm_compute. reflexivity.
  - reflexivity.
  - reflexivity.
Defined.

(** * The reshaping of an issue, in full *)

Section IssueShape.

Lemma mapM_Forall2 {A B} (f : A -> result B) (l : list A) :
  forall l', mapM f l = Ok l' -> Forall2 (fun x y => f x = Ok y) l l'.
Proof.
  induction l as [|x l IH]; intros l' H.
  - injection H as <-. constructor.
  - cbn [mapM] in H. destruct (f x) as [y|e] eqn:Ex; [|discriminate H].
    cbn [rbind] in H. destruct (mapM f l) as [ys|e]; [|discriminate H].
    injection H as <-. constructor; [exact Ex | apply IH; reflexivity].
Qed.

Lemma mapM_ok_iff {A B} (f : A -> result B) (ok : A -> bool) (l : list A) :
  (forall x, In x l -> (exists y, f x = Ok y) <-> ok x = true) ->
  (exists l', mapM f l = Ok l') <-> forallb ok l = true.
Proof.
  induction l as [|x l IH]; intros Hf.
  - split; [reflexivity | intros _; eexists; reflexivity].
  - cbn [mapM forallb]. rewrite andb_true_iff.
    assert (Hx := Hf x (or_introl eq_refl)).
    assert (Hl := IH (fun y Hy => Hf y (or_intror Hy))).
    split.
    + intros [l' H]. destruct (f x) as [y|e] eqn:Ex; [|discriminate H].
      cbn [rbind] in H. destruct (mapM f l) as [ys|e] eqn:El;
        [|discriminate H].
      split; [apply Hx; eexists; reflexivity | apply Hl; eexists; reflexivity].
    + intros [H1 H2]. apply Hx in H1. apply Hl in H2.
      destruct H1 as [y ->]. destruct H2 as [ys ->]. eexists. reflexivity.
Qed.

Lemma get_field kvs k :
  PyJson.get (JObj kvs) k = Ok (field k (JObj kvs)).
Proof. reflexivity. Qed.

Lemma author_login_cases kvs :
  FetchIssue.author_login (JObj kvs)
  = if author_readable (field "author" (JObj kvs))
    then Ok (field "login" (PyJson.or_else (field "author" (JObj kvs))
                              (JObj [])))
    else Err (Exn AttributeError
                ("'" ++ PyJson.type_name (field "author" (JObj kvs))
                 ++ "' object has no attribute 'get'")).
Proof.
  unfold FetchIssue.author_login. rewrite get_field.
  cbn [rbind]. unfold author_readable, PyJson.or_else.
  generalize (field "author" (JObj kvs)). intros a.
  destruct a as [| b | n | s | l | akvs];
    cbn [PyJson.truthy negb orb PyJson.is_dict].
  - reflexivity.
  - destruct b; reflexivity.
  - destruct (n =? 0)%Z; reflexivity.
  - destruct (s =? ""); reflexivity.
  - destruct l; reflexivity.
  - destruct akvs; reflexivity.
Qed.

Lemma iter_or_else_cases (v : json) :
  PyJson.iter (PyJson.or_else v (JArr []))
  = if loopable v then Ok (elements v)
    else Err (Exn TypeError
                ("'" ++ PyJson.type_name v ++ "' object is not iterable")).
Proof.
  unfold elements, loopable, PyJson.or_else.
  destruct v as [| b | n | s | l | kvs]; cbn [PyJson.truthy negb orb].
  - reflexivity.
  - destruct b; reflexivity.
  - destruct (n =? 0)%Z; reflexivity.
  - destruct (s =? ""); reflexivity.
  - destruct l; reflexivity.
  - destruct kvs; reflexivity.
Qed.

Lemma flat_names_cases kvs f k :
  FetchIssue.flat_names (JObj kvs) f k
  = if loopable (field f (JObj kvs))
    then Ok (JArr (map (field k)
                     (filter PyJson.is_dict (elements (field f (JObj kvs))))))
    else Err (Exn TypeError
                ("'" ++ PyJson.type_name (field f (JObj kvs))
                 ++ "' object is not iterable")).
Proof.
  unfold FetchIssue.flat_names. rewrite get_field. cbn [rbind].
  rewrite iter_or_else_cases.
  destruct (loopable _); [|reflexivity].
  cbn [rbind]. rewrite mapM_get_dicts. reflexivity.
Qed.

Lemma normalize_comment_ok_iff (c : json) :
  PyJson.is_dict c = true ->
  (exists o, FetchIssue.normalize_comment c = Ok o)
  <-> author_readable (field "author" c) = true.
Proof.
  destruct c as [| | | | | kvs]; try discriminate. intros _.
  unfold FetchIssue.normalize_comment. rewrite !get_obj, author_login_cases.
  cbn [rbind].
  destruct (author_readable (field "author" (JObj kvs))).
  - split; [reflexivity | intros _; eexists; reflexivity].
  - split; [intros [o H]; discriminate H | discriminate].
Qed.

Lemma normalize_comments_cases kvs :
  FetchIssue.normalize_comments (JObj kvs)
  = if loopable (field "comments" (JObj kvs))
    then rbind (mapM FetchIssue.normalize_comment
                  (filter PyJson.is_dict
                     (elements (field "comments" (JObj kvs)))))
               (fun l => Ok (JArr l))
    else Err (Exn TypeError
                ("'" ++ PyJson.type_name (field "comments" (JObj kvs))
                 ++ "' object is not iterable")).
Proof.
  unfold FetchIssue.normalize_comments. rewrite get_field.
  cbn [rbind]. rewrite iter_or_else_cases.
  destruct (loopable _); reflexivity.
Qed.

Lemma filter_dicts_are_dicts (l : list json) (x : json) :
  In x (filter PyJson.is_dict l) -> PyJson.is_dict x = true.
Proof. intros H. apply filter_In in H. tauto. Qed.

End IssueShape.

(** X18.  [fetch_issue] reshapes a payload without an exception exactly
    when the payload is well shaped: its author is falsy or a dict, its
    assignees, labels and comments are falsy or something a [for] loop can
    visit, and every dict among its comments has a falsy or dict author.
    A payload that is no dict at all is refused with an [AttributeError]. *)
Theorem reshaping_succeeds_exactly_on_well_shaped_payloads :
  (forall kvs : list (string * json),
     (exists res, FetchIssue.normalize (JObj kvs) = Ok res)
     <-> well_shaped kvs = true)
  /\ (forall payload : json,
        PyJson.is_dict payload = false ->
        FetchIssue.normalize payload
        = Err (Exn AttributeError
                 ("'" ++ PyJson.type_name payload
                  ++ "' object has no attribute 'get'"))).
Proof.
  split.
  - intros kvs. unfold well_shaped, FetchIssue.normalize,
      FetchIssue.normalize_issue.
    rewrite !get_obj, author_login_cases, !flat_names_cases,
      normalize_comments_cases.
    cbn [rbind].
    destruct (author_readable (field "author" (JObj kvs)));
      [|split; [intros [r H]; discriminate H | discriminate]].
    cbn [rbind andb].
    destruct (loopable (field "assignees" (JObj kvs)));
      [|split; [intros [r H]; discriminate H | discriminate]].
    cbn [rbind andb].
    destruct (loopable (field "labels" (JObj kvs)));
      [|split; [intros [r H]; discriminate H | discriminate]].
    cbn [rbind andb].
    destruct (loopable (field "comments" (JObj kvs)));
      [|split; [intros [r H]; discriminate H | discriminate]].
    cbn [rbind andb].
    rewrite <- (mapM_ok_iff FetchIssue.normalize_comment
                  (fun c => author_readable (field "author" c))).
    + split.
      * intros [r H].
        destruct (mapM FetchIssue.normalize_comment _) as [l|e];
          [eexists; reflexivity | discriminate H].
      * intros [l ->]. eexists. reflexivity.
    + intros x Hx. apply normalize_comment_ok_iff.
      exact (filter_dicts_are_dicts _ _ Hx).
  - intros payload H. destruct payload; try discriminate H; reflexivity.
Qed.

(** An instance: the sample payload of the client. *)
Lemma reshaping_succeeds_exactly_on_well_shaped_payloads_witness :
  exists res, FetchIssue.normalize (JObj Mock.full_issue) = Ok res.
Proof.
  apply (proj2 (proj1 reshaping_succeeds_exactly_on_well_shaped_payloads
                  Mock.full_issue)).
  reflexivity.
Defined.

(** X19.  Whatever the payload holds, the document [fetch_issue] returns
    has one fixed shape: an issue with the ten keys number, title, url,
    state, body, author, createdAt, updatedAt, assignees and labels, in
    this order, and comments that each have the five keys id, author,
    createdAt, updatedAt and body.  No other key of the payload reaches the
    output. *)
Theorem reshaped_issue_has_fixed_keys (payload res : json) :
  FetchIssue.normalize payload = Ok res ->
  exists issue comments,
    res = JObj [("issue", JObj issue); ("comments", JArr comments)]
    /\ map fst issue
       = ["number"; "title"; "url"; "state"; "body"; "author"; "createdAt";
          "updatedAt"; "assignees"; "labels"]
    /\ Forall (fun c =>
                 exists ckvs,
                   c = JObj ckvs
                   /\ map fst ckvs
                      = ["id"; "author"; "createdAt"; "updatedAt"; "body"])
              comments.
Proof.
  unfold FetchIssue.normalize. intros H. rbind_inv H. injection H as <-.
  unfold FetchIssue.normalize_issue in E. rbind_inv E. injection E as <-.
  unfold FetchIssue.normalize_comments in E0. rbind_inv E0.
  injection E0 as <-.
  do 2 eexists. split; [reflexivity|]. split; [reflexivity|].
  match goal with
  | Hm : mapM FetchIssue.normalize_comment _ = Ok _ |- _ =>
      apply mapM_Forall2 in Hm; induction Hm as [|c o cs os Hc _ IH]
  end.
  - constructor.
  - constructor; [|exact IH].
    unfold FetchIssue.normalize_comment in Hc. rbind_inv Hc.
    injection Hc as <-. eexists. split; reflexivity.
Qed.

(** An instance: the sample payload, which also holds a key of its own. *)
Lemma reshaped_issue_has_fixed_keys_witness :
  exists res issue comments,
    FetchIssue.normalize (JObj (("secret", JStr "s") :: Mock.full_issue))
    = Ok res
    /\ res = JObj [("issue", JObj issue); ("comments", JArr comments)]
    /\ map fst issue
       = ["number"; "title"; "url"; "state"; "body"; "author"; "createdAt";
          "updatedAt"; "assignees"; "labels"]
    /\ Forall (fun c =>
                 exists ckvs,
                   c = JObj ckvs
                   /\ map fst ckvs
                      = ["id"; "author"; "createdAt"; "updatedAt"; "body"])
              comments.
Proof.
  destruct (FetchIssue.normalize
              (JObj (("secret", JStr "s") :: Mock.full_issue)))
    as [res|e] eqn:En; [|vm_compute in En; discriminate En].
  destruct (reshaped_issue_has_fixed_keys _ _ En) as (issue & comments & H).
  exists res, issue, comments. split; [reflexivity | exact H].
Defined.





(** * Parsing twice *)

Section Idempotence.

Lemma rstrip_by_cons p c r :
  p c = false ->
  Py.rstrip_by p (String c r) = String c (Py.rstrip_by p r).
Proof.
  intros H. cbn [Py.rstrip_by]. rewrite H.
  destruct (Py.rstrip_by p r); reflexivity.
Qed.

Lemma rstrip_by_idem p s :
  Py.rstrip_by p (Py.rstrip_by p s) = Py.rstrip_by p s.
Proof.
  assert (Heq : forall c r,
             Py.rstrip_by p (String c r)
             = match Py.rstrip_by p r with
               | EmptyString => if p c then EmptyString else Py.chr c
               | String d r' => String c (String d r')
               end) by reflexivity.
  induction s as [|c r IH]; [reflexivity|].
  rewrite (Heq c r).
  destruct (Py.rstrip_by p r) as [|d r'] eqn:Er.
  - destruct (p c) eqn:Ec; [reflexivity|].
    unfold Py.chr. rewrite Heq. cbn [Py.rstrip_by]. rewrite Ec. reflexivity.
  - rewrite Heq, IH. reflexivity.
Qed.

Lemma lstrip_by_head_or_empty p s :
  Py.lstrip_by p s = ""
  \/ exists c r, Py.lstrip_by p s = String c r /\ p c = false.
Proof.
  induction s as [|c r IH]; [left; reflexivity|].
  cbn [Py.lstrip_by]. destruct (p c) eqn:Ec; [exact IH|].
  right. exists c, r. split; [reflexivity | exact Ec].
Qed.

(** [strip] changes nothing in what it returns. *)
Lemma strip_idem s : Py.strip (Py.strip s) = Py.strip s.
Proof.
  unfold Py.strip.
  destruct (lstrip_by_head_or_empty Py.isspace s) as [E | (c & r & E & Hc)];
    rewrite E.
  - reflexivity.
  - rewrite (rstrip_by_cons _ _ _ Hc). rewrite (lstrip_by_head _ _ _ Hc).
    rewrite <- (rstrip_by_cons _ _ _ Hc). apply rstrip_by_idem.
Qed.

End Idempotence.

(** X23.  The parser of the pull-request scripts returns references it
    accepts unchanged: what it returns for an argument, it returns again
    when given its own result. *)
Theorem parse_pr_ref_is_idempotent (a r : string) :
  FetchPrDiff._parse_pr_ref a = Ok r ->
  FetchPrDiff._parse_pr_ref r = Ok r
  /\ FetchPrComments._parse_pr_ref r = Ok r.
Proof.
  intros H.
  assert (E : FetchPrDiff._parse_pr_ref r = Ok r); [|split; exact E].
  unfold FetchPrDiff._parse_pr_ref in H.
  destruct (Py.fullmatch_hash_digits (Py.strip a)) eqn:Eh.
  - apply fullmatch_hash_digits_inv in Eh. destruct Eh as (t & Es & Ht).
    rewrite Es in H.
    change (Py.lstrip_chars ["#"%char] (String "#" t))
      with (Py.lstrip_chars ["#"%char] t) in H.
    rewrite (lstrip_hash_digits _ (fullmatch_digits_all _ Ht)) in H.
    injection H as <-. apply parse_pr_ref_digits, Ht.
  - destruct (Py.fullmatch_digits (Py.strip a)) eqn:Ed.
    + injection H as <-. apply parse_pr_ref_digits, Ed.
    + destruct (Py.search_pull_digits (Py.strip a)) eqn:Es;
        [|discriminate H].
      injection H as <-. unfold FetchPrDiff._parse_pr_ref.
      rewrite strip_idem, Eh, Ed, Es. reflexivity.
Qed.

(** An instance: a padded URL. *)
Lemma parse_pr_ref_is_idempotent_witness :
  FetchPrDiff._parse_pr_ref "https://github.com/acme/widget/pull/7"
  = Ok "https://github.com/acme/widget/pull/7"
  /\ FetchPrComments._parse_pr_ref "https://github.com/acme/widget/pull/7"
     = Ok "https://github.com/acme/widget/pull/7".
Proof.
  apply (parse_pr_ref_is_idempotent
           "  https://github.com/acme/widget/pull/7 "
           "https://github.com/acme/widget/pull/7").
  reflexivity.
Defined.

(** * The shape of what [fetch_all] returns *)

Section ResultShape.

Variables (owner repo : json).

Let six_keys (m : json) : Prop :=
  exists vn vu vt vs,
    m = JObj [("number", vn); ("url", vu); ("title", vt); ("state", vs);
              ("owner", owner); ("repo", repo)].

Lemma rounds_meta ps : forall st st',
  rounds owner repo st ps = Some st' ->
  exists m,
    FetchPrComments.pr_meta st' = Some m
    /\ match FetchPrComments.pr_meta st with
       | Some m0 => m = m0
       | None => six_keys m
       end.
Proof.
  induction ps as [|p rest IH]; intros st st' H; [discriminate H|].
  cbn [rounds] in H.
  destruct (FetchPrComments.absorb owner repo st p) as [s|e] eqn:Ea;
    [|discriminate H].
  destruct (absorb_inv _ _ _ _ _ Ea)
    as (pr & meta & _ & _ & _ & _ & Hmeta & _ & _ & _ & _ & _ & _ & _ & _ & _ & Hm).
  assert (Hs : match FetchPrComments.pr_meta st with
               | Some m0 => meta = m0
               | None => six_keys meta
               end).
  { destruct (FetchPrComments.pr_meta st) as [m0|].
    - injection Hmeta as <-. reflexivity.
    - unfold FetchPrComments.make_meta in Hmeta. rbind_inv Hmeta.
      injection Hmeta as <-. do 4 eexists. reflexivity. }
  destruct (FetchPrComments.finished s).
  - destruct rest; [|discriminate H]. injection H as <-.
    exists meta. split; assumption.
  - destruct (IH _ _ H) as (m & Hm' & Hk). rewrite Hm in Hk. subst m.
    exists meta. split; assumption.
Qed.

End ResultShape.

(** X24.  What [fetch_all] returns has the shape its script documents: a
    dict with the keys pull_request, conversation_comments, reviews and
    review_threads, in this order; the first is a dict with the keys
    number, url, title, state, owner and repo, of which the last two are
    the owner and repository [fetch_all] was called with; the other three
    are lists. *)
Theorem fetch_all_returns_the_documented_shape
    (json_loads : string -> json + string) (W : world) (w : wstate W)
    (fuel : nat) (owner repo : json) (number : Z)
    (res : json) (tr : list call) :
  exec W (FetchPrComments.fetch_all json_loads fuel owner repo number) w
  = (Returned res, tr) ->
  exists vn vu vt vs comments reviews threads,
    res = JObj [("pull_request",
                 JObj [("number", vn); ("url", vu); ("title", vt);
                       ("state", vs); ("owner", owner); ("repo", repo)]);
                ("conversation_comments", JArr comments);
                ("reviews", JArr reviews);
                ("review_threads", JArr threads)].
Proof.
  intros H. unfold FetchPrComments.fetch_all in H.
  destruct (fetch_loop_returns_rounds _ _ _ _ _ _ _ _ _ _ H)
    as (ps & st' & _ & Hr & ->).
  destruct (rounds_meta _ _ _ _ _ Hr) as (m & Hm & Hk).
  cbn [FetchPrComments.pr_meta FetchPrComments.initial_state] in Hk.
  destruct Hk as (vn & vu & vt & vs & ->).
  exists vn, vu, vt, vs. do 3 eexists.
  unfold FetchPrComments.result_of. rewrite Hm. reflexivity.
Qed.

(** An instance: the run of two round trips against the paged responder. *)
Lemma fetch_all_returns_the_documented_shape_witness :
  exists vn vu vt vs comments reviews threads,
    fst (exec (Mock.github Mock.srv_1_2_1)
           (FetchPrComments.fetch_all
              (Mock.loads (Mock.payloads Mock.srv_1_2_1))
              9 (JStr "acme") (JStr "widget") 7) tt)
    = Returned
        (JObj [("pull_request",
                JObj [("number", vn); ("url", vu); ("title", vt);
                      ("state", vs); ("owner", JStr "acme");
                      ("repo", JStr "widget")]);
               ("conversation_comments", JArr comments);
               ("reviews", JArr reviews);
               ("review_threads", JArr threads)]).
Proof.
  destruct (fetch_all_returns_the_documented_shape
              _ _ _ _ _ _ _ _ _ run_one_two_one)
    as (vn & vu & vt & vs & cs & rs & ts & H).
  exists vn, vu, vt, vs, cs, rs, ts. rewrite run_one_two_one.
  cbn [fst]. rewrite H. reflexivity.
Defined.
